(** * USB Charge Controller: the charge scheduling state machine

    A shallow embedding of [USB_Charge_Controller.ino]: the global [state]
    struct, the interrupt handler [manualOverride], the timer callback
    [powerManagement], the Blynk dashboard handlers and the debounce
    bookkeeping of [loop], followed by the properties of the scheduling
    state machine.

    Conventions of the embedding.
    - [int] is the 32-bit signed integer of the ESP8266, [uint32_t] and the
      value of [millis()] are 32-bit unsigned, [uint8_t] is 8-bit unsigned;
      all are carried as [Z] with the wrap-around written out ([to_int32],
      [to_uint32], [to_uint8]).  Signed overflow, undefined in C++, is
      modelled by two's complement wrap-around.
    - [time_t] is the 32-bit type of the TimeLib/ESP8266 toolchain the
      sketch was written for, so that arithmetic mixing [time_t] and
      [uint32_t] is arithmetic modulo 2^32.
    - [float] is IEEE 754 binary32 and [double] binary64, both taken from
      the Standard Library's executable specification [SpecFloat]; their
      values are compared with exact rational arithmetic.  The conversion
      of a [float] to [int] truncates; where it is undefined in C++ (the
      truncated value is not an [int]) the embedding returns [INT_MIN].
    - Calls into the Blynk library and the GPIO are recorded as a trace of
      [Effect]s; the handlers run in a small state-and-trace monad [Cmd].
    - The OLED rendering ([statusUpdate]) is embedded as the list of calls
      it makes on the display; the OTA set-up is not part of the
      embedding. *)

From Stdlib Require Import ZArith List Bool String Lia.
From Stdlib Require Import QArith Qpower Lqa.
From Stdlib Require Import DecimalString.
From Stdlib Require Import Floats.SpecFloat.
Import ListNotations.
Open Scope Z_scope.

(** ** Machine integers *)

Module MachInt.

Definition to_uint32 (z : Z) : Z := z mod 2 ^ 32.

Definition to_int32 (z : Z) : Z := (z + 2 ^ 31) mod 2 ^ 32 - 2 ^ 31.

Definition to_uint8 (z : Z) : Z := z mod 2 ^ 8.

End MachInt.
Import MachInt.

(** ** Floating point: [float] and [double] *)

Module Flt.

(** [static_cast<float>] of an integer: round to nearest even in binary32. *)
Definition float_of_int (z : Z) : spec_float :=
  binary_normalize 24 128 z 0 false.

(** Usual arithmetic conversion of a [float] operand to [double] (exact). *)
Definition double_of_float (x : spec_float) : spec_float :=
  match x with
  | S754_finite s m e => binary_round 53 1024 s m e
  | _ => x
  end.

(** Conversion of a [double] to [float] on assignment. *)
Definition float_of_double (x : spec_float) : spec_float :=
  match x with
  | S754_finite s m e => binary_round 24 128 s m e
  | _ => x
  end.

(** The [double] literal [100.0]. *)
Definition double_100 : spec_float := binary_normalize 53 1024 100 0 false.

(** The bounds of [int]. *)
Definition INT_MIN : Z := - 2 ^ 31.
Definition INT_MAX : Z := 2 ^ 31 - 1.

(** A finite [float] truncated toward zero, as a mathematical integer. *)
Definition truncate (s : bool) (m : positive) (e : Z) : Z :=
  cond_Zopp s
    (match e with
     | Z0 => Zpos m
     | Zpos _ => Zpos m * 2 ^ e
     | Zneg p => Zpos m / 2 ^ Zpos p
     end).

(** [static_cast<int>] of a [float]: truncation toward zero.  The cast is
    undefined when the truncated value is not an [int], and for NaN and
    infinities; the result is then taken to be [INT_MIN], the value
    hardware conversions commonly deliver in that case.  Statements about
    the converted value are made where the cast is defined. *)
Definition int_of_float (x : spec_float) : Z :=
  match x with
  | S754_zero _ => 0
  | S754_finite s m e =>
      let z := truncate s m e in
      if (INT_MIN <=? z) && (z <=? INT_MAX) then z else INT_MIN
  | S754_infinity _ | S754_nan => INT_MIN
  end.

End Flt.
Import Flt.

(** ** TimeLib: [hour], [minute], [second] of a [time_t]

    TimeLib's [breakTime] works on [(uint32_t) timeInput]: seconds are
    [time % 60], then [time /= 60], minutes are [time % 60], then
    [time /= 60] and hours are [time % 24]. *)

Module TimeLib.

Definition second (t : Z) : Z := to_uint32 t mod 60.

Definition minute (t : Z) : Z := (to_uint32 t / 60) mod 60.

Definition hour (t : Z) : Z := (to_uint32 t / 60 / 60) mod 24.

End TimeLib.
Import TimeLib.

(** ** Constants of the sketch *)

(** Dashboard controls ([V0] .. [V6]). *)
Inductive VPin : Set :=
  | STATUS_LED | MENU | SCHEDULE | PROGRESS_BAR
  | MANUAL_OVERRIDE | FORCE_DISABLE | MANUAL_RUNTIME.

Definition BLYNK_RED : string := "#D3435C".
Definition BLYNK_YELLOW : string := "#ED9D00".
Definition BLYNK_GREEN : string := "#23C48E".
Definition BLYNK_BLUE : string := "#04C0F8".

Definition BLYNK_DEBOUNCE_TIME : Z := 1000.
Definition DEBOUNCE_TIME : Z := 250.

(** ** The data model *)

Inductive ChargeState : Set :=
  | S_MANUAL | S_CHARGING | S_DISABLED | S_QUIESCENT.

Definition ChargeState_eqb (a b : ChargeState) : bool :=
  match a, b with
  | S_MANUAL, S_MANUAL | S_CHARGING, S_CHARGING
  | S_DISABLED, S_DISABLED | S_QUIESCENT, S_QUIESCENT => true
  | _, _ => false
  end.

(** The global [state] struct, followed by the other mutable globals and
    the function-local statics of the sketch. *)
Record State : Type := mkState {
  start : Z;                      (* int: scheduled start time *)
  stop : Z;                       (* int: scheduled stop time *)
  menuSelection : Z;              (* uint8_t *)
  chargeState : ChargeState;
  lastChargeState : ChargeState;
  manual : bool;
  disable : bool;
  charging : bool;                (* controls charging MOSFET *)
  runtimeStart : Z;               (* time_t *)
  chargeProgress : spec_float;    (* float *)
  savedRuntime : Z;               (* uint32_t *)
  counterEnabled : bool;          (* static in powerManagement *)
  debounce : bool;                (* volatile global *)
  debounceStart : Z;              (* volatile uint32_t global *)
  lastPress_manual : Z;           (* static int in BLYNK_WRITE(MANUAL_OVERRIDE) *)
  lastPress_disable : Z           (* static int in BLYNK_WRITE(FORCE_DISABLE) *)
}.

(** The state after the static initialisers have run. *)
Definition init : State :=
  {| start := 0;
     stop := 6 * 3600;
     menuSelection := 1;
     chargeState := S_QUIESCENT;
     lastChargeState := S_QUIESCENT;
     manual := false;
     disable := false;
     charging := false;
     runtimeStart := 0;
     chargeProgress := S754_zero false;
     savedRuntime := 0;
     counterEnabled := false;
     debounce := true;
     debounceStart := 0;
     lastPress_manual := 0;
     lastPress_disable := 0 |}.

(** Field assignments: [set_f v s] is [s] after [state.f = v]. *)

Definition set_start (v : Z) (s : State) : State :=
  let 'mkState _ sp sel cs lcs man dis chg rs cp sv ce db dbs lpm lpd := s in
  mkState v sp sel cs lcs man dis chg rs cp sv ce db dbs lpm lpd.

Definition set_stop (v : Z) (s : State) : State :=
  let 'mkState st _ sel cs lcs man dis chg rs cp sv ce db dbs lpm lpd := s in
  mkState st v sel cs lcs man dis chg rs cp sv ce db dbs lpm lpd.

Definition set_menuSelection (v : Z) (s : State) : State :=
  let 'mkState st sp _ cs lcs man dis chg rs cp sv ce db dbs lpm lpd := s in
  mkState st sp v cs lcs man dis chg rs cp sv ce db dbs lpm lpd.

Definition set_chargeState (v : ChargeState) (s : State) : State :=
  let 'mkState st sp sel _ lcs man dis chg rs cp sv ce db dbs lpm lpd := s in
  mkState st sp sel v lcs man dis chg rs cp sv ce db dbs lpm lpd.

Definition set_lastChargeState (v : ChargeState) (s : State) : State :=
  let 'mkState st sp sel cs _ man dis chg rs cp sv ce db dbs lpm lpd := s in
  mkState st sp sel cs v man dis chg rs cp sv ce db dbs lpm lpd.

Definition set_manual (v : bool) (s : State) : State :=
  let 'mkState st sp sel cs lcs _ dis chg rs cp sv ce db dbs lpm lpd := s in
  mkState st sp sel cs lcs v dis chg rs cp sv ce db dbs lpm lpd.

Definition set_disable (v : bool) (s : State) : State :=
  let 'mkState st sp sel cs lcs man _ chg rs cp sv ce db dbs lpm lpd := s in
  mkState st sp sel cs lcs man v chg rs cp sv ce db dbs lpm lpd.

Definition set_charging (v : bool) (s : State) : State :=
  let 'mkState st sp sel cs lcs man dis _ rs cp sv ce db dbs lpm lpd := s in
  mkState st sp sel cs lcs man dis v rs cp sv ce db dbs lpm lpd.

Definition set_runtimeStart (v : Z) (s : State) : State :=
  let 'mkState st sp sel cs lcs man dis chg _ cp sv ce db dbs lpm lpd := s in
  mkState st sp sel cs lcs man dis chg v cp sv ce db dbs lpm lpd.

Definition set_chargeProgress (v : spec_float) (s : State) : State :=
  let 'mkState st sp sel cs lcs man dis chg rs _ sv ce db dbs lpm lpd := s in
  mkState st sp sel cs lcs man dis chg rs v sv ce db dbs lpm lpd.

Definition set_savedRuntime (v : Z) (s : State) : State :=
  let 'mkState st sp sel cs lcs man dis chg rs cp _ ce db dbs lpm lpd := s in
  mkState st sp sel cs lcs man dis chg rs cp v ce db dbs lpm lpd.

Definition set_counterEnabled (v : bool) (s : State) : State :=
  let 'mkState st sp sel cs lcs man dis chg rs cp sv _ db dbs lpm lpd := s in
  mkState st sp sel cs lcs man dis chg rs cp sv v db dbs lpm lpd.

Definition set_debounce (v : bool) (s : State) : State :=
  let 'mkState st sp sel cs lcs man dis chg rs cp sv ce _ dbs lpm lpd := s in
  mkState st sp sel cs lcs man dis chg rs cp sv ce v dbs lpm lpd.

Definition set_debounceStart (v : Z) (s : State) : State :=
  let 'mkState st sp sel cs lcs man dis chg rs cp sv ce db _ lpm lpd := s in
  mkState st sp sel cs lcs man dis chg rs cp sv ce db v lpm lpd.

Definition set_lastPress_manual (v : Z) (s : State) : State :=
  let 'mkState st sp sel cs lcs man dis chg rs cp sv ce db dbs _ lpd := s in
  mkState st sp sel cs lcs man dis chg rs cp sv ce db dbs v lpd.

Definition set_lastPress_disable (v : Z) (s : State) : State :=
  let 'mkState st sp sel cs lcs man dis chg rs cp sv ce db dbs lpm _ := s in
  mkState st sp sel cs lcs man dis chg rs cp sv ce db dbs lpm v.

(** ** Effects on the outside world, and the command monad *)

Inductive Value : Set :=
  | VInt (z : Z)
  | VBool (b : bool)
  | VStr (str : string).

Inductive Effect : Set :=
  | LED_setColor (color : string)                (* statusLED.setColor *)
  | LED_setLabel (label : string)                (* statusLED.setLabel *)
  | virtualWrite (pin : VPin) (args : list Value) (* Blynk.virtualWrite *)
  | digitalWrite_ENABLE (high : bool).           (* digitalWrite(ENABLE, _) *)

(** A command transforms the globals and appends to the trace. *)
Definition Cmd (A : Type) : Type := State -> A * State * list Effect.

Definition ret {A : Type} (a : A) : Cmd A := fun s => (a, s, []).

Definition bind {A B : Type} (m : Cmd A) (k : A -> Cmd B) : Cmd B :=
  fun s =>
    let '(a, s1, o1) := m s in
    let '(b, s2, o2) := k a s1 in
    (b, s2, o1 ++ o2).

Definition read {A : Type} (f : State -> A) : Cmd A := fun s => (f s, s, []).

Definition modify (f : State -> State) : Cmd unit := fun s => (tt, f s, []).

Definition emit (e : Effect) : Cmd unit := fun s => (tt, s, [e]).

Definition when (b : bool) (m : Cmd unit) : Cmd unit :=
  if b then m else ret tt.

Declare Scope cmd_scope.
Delimit Scope cmd_scope with cmd.
Notation "x <- m ;; k" := (bind m (fun x => k))
  (at level 61, m at next level, right associativity) : cmd_scope.
Notation "m ;; k" := (bind m (fun _ => k))
  (at level 61, right associativity) : cmd_scope.
Open Scope cmd_scope.

(** The globals and the trace a command leaves behind. *)
Definition exec {A : Type} (m : Cmd A) (s : State) : State := snd (fst (m s)).

Definition trace {A : Type} (m : Cmd A) (s : State) : list Effect := snd (m s).

(** ** The interrupt handler of the tactile switch

    [millis] is the value [millis()] returns when the handler runs. *)
Definition manualOverride (millis : Z) : Cmd unit :=
  db <- read debounce ;;
  when (negb db)
    (modify (set_debounce true) ;;
     modify (set_debounceStart millis) ;;
     m <- read manual ;;
     modify (set_manual (negb m))).

(** ** The timer callback [powerManagement] *)

(** The callback reads the clock up to three times: [timeNow = now()] on
    entry, [now()] where a session is started or folded into the saved
    runtime, and [now()] where the progress is reported.  The Blynk calls
    in between can take seconds, so the readings are kept apart. *)
Record Clock : Set := mkClock {
  t_entry : Z;
  t_session : Z;
  t_report : Z
}.

(** A clock that does not advance during the callback. *)
Definition at_time (t : Z) : Clock := mkClock t t t.

Definition currentTimeinSecs (clk : Clock) : Z :=
  let timeNow := t_entry clk in
  3600 * hour timeNow + 60 * minute timeNow + second timeNow.

(** [printf]'s [%02d]. *)
Definition fmt_02d (z : Z) : string :=
  let digits := NilZero.string_of_int (Z.to_int z) in
  if (0 <=? z) && (z <? 10) then String.append "0" digits else digits.

(** [sprintf(buf, "Elapsed %02d:%02d:%02d", runtime / 3600,
    (runtime % 3600) / 60, runtime % 60)], with C's truncating division. *)
Definition elapsed_string (runtime : Z) : string :=
  String.append "Elapsed "
    (String.append (fmt_02d (Z.quot runtime 3600))
       (String.append ":"
          (String.append (fmt_02d (Z.quot (Z.rem runtime 3600) 60))
             (String.append ":" (fmt_02d (Z.rem runtime 60)))))).

(** The right-hand side of the assignment to [state.chargeProgress]:
    [(static_cast<float>(elapsed) / static_cast<float>(scheduledSeconds)) * 100.0],
    a [float] division, a [double] product, converted back to [float]. *)
Definition progress_percent (elapsed scheduledSeconds : Z) : spec_float :=
  float_of_double
    (SFmul 53 1024
       (double_of_float
          (SFdiv 24 128 (float_of_int elapsed) (float_of_int scheduledSeconds)))
       double_100).

Definition powerManagement (clk : Clock) : Cmd unit :=
  let currentTimeinSecs := currentTimeinSecs clk in
  dis <- read disable ;;
  (if negb dis then
     st <- read start ;;
     sp <- read stop ;;
     if (st <=? currentTimeinSecs) && (currentTimeinSecs <? sp) then
       (* in the charging window *)
       ce <- read counterEnabled ;;
       when (negb ce)
         (modify (set_counterEnabled true) ;;
          modify (set_runtimeStart (t_session clk))) ;;
       modify (set_chargeState S_CHARGING) ;;
       cs <- read chargeState ;;
       lcs <- read lastChargeState ;;
       when (negb (ChargeState_eqb cs lcs))
         (modify (set_lastChargeState cs) ;;
          emit (LED_setColor BLYNK_GREEN) ;;
          emit (LED_setLabel "ON") ;;
          emit (virtualWrite MANUAL_OVERRIDE [VBool false]) ;;
          emit (virtualWrite MANUAL_RUNTIME [VStr " "])) ;;
       modify (set_charging true) ;;
       (* the automatic cycle overrides the manual setting *)
       modify (set_manual false)
     else
       man <- read manual ;;
       if man then
         ce <- read counterEnabled ;;
         when (negb ce)
           (modify (set_counterEnabled true) ;;
            modify (set_runtimeStart (t_session clk)) ;;
            emit (virtualWrite PROGRESS_BAR [VInt 0])) ;;
         modify (set_chargeState S_MANUAL) ;;
         cs <- read chargeState ;;
         lcs <- read lastChargeState ;;
         when (negb (ChargeState_eqb cs lcs))
           (modify (set_lastChargeState cs) ;;
            emit (LED_setColor BLYNK_BLUE) ;;
            emit (LED_setLabel "MAN") ;;
            emit (virtualWrite MANUAL_OVERRIDE [VBool true]) ;;
            emit (virtualWrite MANUAL_RUNTIME [VStr " "])) ;;
         modify (set_charging true) ;;
         (* reset anytime we are not in the charging window *)
         modify (set_savedRuntime 0)
       else
         (* outside the charging window *)
         modify (set_chargeState S_QUIESCENT) ;;
         cs <- read chargeState ;;
         lcs <- read lastChargeState ;;
         when (negb (ChargeState_eqb cs lcs))
           (modify (set_lastChargeState cs) ;;
            emit (LED_setColor BLYNK_RED) ;;
            emit (LED_setLabel "OFF") ;;
            emit (virtualWrite MANUAL_OVERRIDE [VBool false]) ;;
            emit (virtualWrite MANUAL_RUNTIME [VStr " "])) ;;
         modify (set_counterEnabled false) ;;
         modify (set_charging false) ;;
         modify (set_savedRuntime 0)
   else
     (* forcibly disabled *)
     cs0 <- read chargeState ;;
     when (ChargeState_eqb cs0 S_CHARGING)
       (saved <- read savedRuntime ;;
        rs <- read runtimeStart ;;
        modify (set_savedRuntime (to_uint32 (saved + (t_session clk - rs))))) ;;
     modify (set_chargeState S_DISABLED) ;;
     cs <- read chargeState ;;
     lcs <- read lastChargeState ;;
     when (negb (ChargeState_eqb cs lcs))
       (modify (set_lastChargeState cs) ;;
        emit (LED_setColor BLYNK_YELLOW) ;;
        emit (LED_setLabel "DSBLD") ;;
        emit (virtualWrite MANUAL_OVERRIDE [VBool false]) ;;
        emit (virtualWrite MANUAL_RUNTIME [VStr " "])) ;;
     modify (set_counterEnabled false) ;;
     modify (set_charging false) ;;
     modify (set_manual false)) ;;
  chg <- read charging ;;
  when chg
    (cs <- read chargeState ;;
     match cs with
     | S_CHARGING =>
         st <- read start ;;
         sp <- read stop ;;
         rs <- read runtimeStart ;;
         saved <- read savedRuntime ;;
         let scheduledSeconds := to_int32 (sp - st) in
         modify (set_chargeProgress
                   (progress_percent (to_uint32 (t_report clk - rs + saved))
                      scheduledSeconds)) ;;
         p <- read chargeProgress ;;
         emit (virtualWrite PROGRESS_BAR [VInt (int_of_float p)])
     | S_MANUAL =>
         rs <- read runtimeStart ;;
         let runtime := to_int32 (t_report clk - rs) in
         emit (virtualWrite MANUAL_RUNTIME [VStr (elapsed_string runtime)])
     | _ => ret tt
     end).

(** ** Blynk dashboard handlers *)

(** What [BLYNK_WRITE(SCHEDULE)] sees of its parameter: the two flags of
    Blynk's [TimeInputParam] and [param[0].asInt()], [param[1].asInt()]. *)
Record TimeInput : Set := mkTimeInput {
  hasStartTime : bool;
  param0 : Z;
  hasStopTime : bool;
  param1 : Z
}.

Definition BLYNK_WRITE_SCHEDULE (schedule : TimeInput) : Cmd unit :=
  when (hasStartTime schedule)
    (let value := param0 schedule in
     when (negb (value =? -1)) (modify (set_start value))) ;;
  when (hasStopTime schedule)
    (let value := param1 schedule in
     when (negb (value =? -1)) (modify (set_stop value))) ;;
  st <- read start ;;
  sp <- read stop ;;
  when (sp <? st)
    (temp <- read start ;;
     sp' <- read stop ;;
     modify (set_start sp') ;;        (* state.start = state.stop; *)
     modify (set_start temp)) ;;      (* state.start = temp; *)
  modify (set_menuSelection 4) ;;
  emit (virtualWrite MENU [VInt 4]).

Definition BLYNK_WRITE_MENU (param : Z) : Cmd unit :=
  modify (set_menuSelection (to_uint8 param)) ;;
  sel <- read menuSelection ;;
  match sel with
  | 1 => modify (set_start 0) ;; modify (set_stop (6 * 3600))
  | 2 => modify (set_start 0) ;; modify (set_stop (8 * 3600))
  | 3 => modify (set_start 0) ;; modify (set_stop (10 * 3600))
  | _ => ret tt
  end ;;
  st <- read start ;;
  sp <- read stop ;;
  emit (virtualWrite SCHEDULE [VInt st; VInt sp]).

(** [millis_check] is the [millis()] of the debounce test, [millis_stamp]
    the one stored in [lastPress]. *)
Definition BLYNK_WRITE_MANUAL_OVERRIDE (millis_check millis_stamp : Z) : Cmd unit :=
  lastPress <- read lastPress_manual ;;
  when (BLYNK_DEBOUNCE_TIME <? to_uint32 (millis_check - lastPress))
    (modify (set_lastPress_manual (to_int32 millis_stamp)) ;;
     m <- read manual ;;
     modify (set_manual (negb m))).

Definition BLYNK_WRITE_FORCE_DISABLE (millis_check millis_stamp : Z) : Cmd unit :=
  lastPress <- read lastPress_disable ;;
  when (BLYNK_DEBOUNCE_TIME <? to_uint32 (millis_check - lastPress))
    (d <- read disable ;;
     modify (set_disable (negb d)) ;;
     d' <- read disable ;;
     emit (virtualWrite FORCE_DISABLE [VBool d']) ;;
     modify (set_lastPress_disable (to_int32 millis_stamp))).

(** ** The main loop *)

(** A write arriving from the dashboard, dispatched by [Blynk.run()]. *)
Inductive BlynkCmd : Set :=
  | Write_SCHEDULE (schedule : TimeInput)
  | Write_MENU (param : Z)
  | Write_MANUAL_OVERRIDE (millis_check millis_stamp : Z)
  | Write_FORCE_DISABLE (millis_check millis_stamp : Z).

Definition dispatch (c : BlynkCmd) : Cmd unit :=
  match c with
  | Write_SCHEDULE schedule => BLYNK_WRITE_SCHEDULE schedule
  | Write_MENU param => BLYNK_WRITE_MENU param
  | Write_MANUAL_OVERRIDE mc ms => BLYNK_WRITE_MANUAL_OVERRIDE mc ms
  | Write_FORCE_DISABLE mc ms => BLYNK_WRITE_FORCE_DISABLE mc ms
  end.

Fixpoint Blynk_run (incoming : list BlynkCmd) : Cmd unit :=
  match incoming with
  | [] => ret tt
  | c :: rest => dispatch c ;; Blynk_run rest
  end.

(** The debounce bookkeeping at the head of [loop]. *)
Definition loop_debounce (millis : Z) : Cmd unit :=
  db <- read debounce ;;
  ds <- read debounceStart ;;
  when (db && (DEBOUNCE_TIME <? to_uint32 (millis - ds)))
    (modify (set_debounce false)).

(** One iteration of [loop]: [millis] is the reading of the debounce
    test, [timer] the clock readings of [powerManagement] when the 5 s
    timer is due in [timer.run()], [incoming] the dashboard writes that
    [Blynk.run()] dispatches. *)
Definition loop (millis : Z) (timer : option Clock) (incoming : list BlynkCmd)
  : Cmd unit :=
  loop_debounce millis ;;
  match timer with
  | Some clk => powerManagement clk
  | None => ret tt
  end ;;
  Blynk_run incoming ;;
  chg <- read charging ;;
  emit (digitalWrite_ENABLE chg).

(** ** Executions *)

Inductive Event : Set :=
  | Edge (millis : Z)                      (* falling edge on the MANUAL pin *)
  | Loop (millis : Z) (timer : option Clock) (incoming : list BlynkCmd).

Definition step (ev : Event) : Cmd unit :=
  match ev with
  | Edge millis => manualOverride millis
  | Loop millis timer incoming => loop millis timer incoming
  end.

(** States the controller can be in: those reached from [init]. *)
Inductive reachable : State -> Prop :=
  | reachable_init : reachable init
  | reachable_step : forall s ev, reachable s -> reachable (exec (step ev) s).

(** Successive timer callbacks with nothing in between. *)
Fixpoint ticks (clks : list Clock) (s : State) : State :=
  match clks with
  | [] => s
  | clk :: rest => ticks rest (exec (powerManagement clk) s)
  end.

(** How many of the edges in [evs] flipped [manual]. *)
Fixpoint edge_flips (evs : list Event) (s : State) : nat :=
  match evs with
  | [] => O
  | ev :: rest =>
      let s' := exec (step ev) s in
      ((match ev with
        | Edge _ => if Bool.eqb (manual s') (manual s) then O else 1%nat
        | Loop _ _ _ => O
        end) + edge_flips rest s')%nat
  end.

(** The level [loop] drives on the ENABLE pin. *)
Definition power_enable (s : State) : bool := charging s.

(** The calls on the status LED in a trace: they are made exactly in the
    blocks guarded by [chargeState != lastChargeState]. *)
Definition is_LED_call (e : Effect) : bool :=
  match e with
  | LED_setColor _ | LED_setLabel _ => true
  | _ => false
  end.

Definition notifications (tr : list Effect) : list Effect :=
  filter is_LED_call tr.

(** What the dashboard LED is told on entering each state. *)
Definition announce (c : ChargeState) : list Effect :=
  match c with
  | S_CHARGING => [LED_setColor BLYNK_GREEN; LED_setLabel "ON"]
  | S_MANUAL => [LED_setColor BLYNK_BLUE; LED_setLabel "MAN"]
  | S_QUIESCENT => [LED_setColor BLYNK_RED; LED_setLabel "OFF"]
  | S_DISABLED => [LED_setColor BLYNK_YELLOW; LED_setLabel "DSBLD"]
  end.

(** The time of day lies in the scheduled window. *)
Definition in_window (s : State) (clk : Clock) : bool :=
  (start s <=? currentTimeinSecs clk) && (currentTimeinSecs clk <? stop s).

(** [Charging] and [Manual] are the states in which runtime is counted. *)
Definition counted (c : ChargeState) : bool :=
  match c with
  | S_CHARGING | S_MANUAL => true
  | _ => false
  end.

(** ** Vocabulary of the statements *)

(** The session bookkeeping shared by the two counted branches:
    [if (!counterEnabled) { counterEnabled = true; runtimeStart = now(); }]. *)
Definition begin_session (clk : Clock) (s : State) : State :=
  if counterEnabled s then s
  else set_runtimeStart (t_session clk) (set_counterEnabled true s).

(** The decision order of the state machine, read off the four branches. *)
Definition decide (s : State) (clk : Clock) : ChargeState :=
  if disable s then S_DISABLED
  else if in_window s clk then S_CHARGING
  else if manual s then S_MANUAL
  else S_QUIESCENT.

(** The fields a dashboard handler never writes. *)
Definition same_session (s s' : State) : Prop :=
  chargeState s' = chargeState s /\
  lastChargeState s' = lastChargeState s /\
  counterEnabled s' = counterEnabled s /\
  charging s' = charging s /\
  runtimeStart s' = runtimeStart s /\
  savedRuntime s' = savedRuntime s /\
  debounce s' = debounce s /\
  debounceStart s' = debounceStart s.

(** What [timer.run()] does in one iteration of [loop]. *)
Definition timer_run (timer : option Clock) : Cmd unit :=
  match timer with
  | Some clk => powerManagement clk
  | None => ret tt
  end.

(** The bookkeeping invariant of the callback: [lastChargeState] follows
    [chargeState], and the runtime counter is active exactly in the counted
    states. *)
Definition consistent (s : State) : Prop :=
  lastChargeState s = chargeState s /\
  counterEnabled s = counted (chargeState s).

(** A reachable state in which a manual session is running: the manual
    button is pressed on the dashboard, and the next callback runs at
    07:00:00, outside the default 00:00-06:00 window. *)
Definition manual_session_running : State :=
  exec (step (Loop 10000 (Some (at_time 25200)) []))
    (exec (step (Loop 5000 None [Write_MANUAL_OVERRIDE 5000 5000])) init).

(** Bounded universal quantification, for facts checked by evaluation. *)
Fixpoint all_upto (k : nat) (p : Z -> bool) : bool :=
  match k with
  | O => p 0
  | S k' => p (Z.of_nat k) && all_upto k' p
  end.

(** The integer shown on the progress bar next to the exact percentage. *)
Definition within_one_percent (scheduledSeconds elapsed : Z) : bool :=
  let shown := int_of_float (progress_percent elapsed scheduledSeconds) in
  let exact := 100 * elapsed / scheduledSeconds in
  (shown <=? exact) && (exact <=? shown + 1).

(** The value of a finite binary floating-point number, as a rational. *)
Definition Qval (m : positive) (e : Z) : Q := (inject_Z (Zpos m) * 2 ^ e)%Q.

Definition float_value (x : spec_float) : Q :=
  match x with
  | S754_finite s m e => if s then (- Qval m e)%Q else Qval m e
  | _ => 0%Q
  end.

(** Two non-negative rationals are within a factor [c] of each other. *)
Definition near (c a b : Q) : Prop := (a <= b * c /\ b <= a * c)%Q.

(** The factor of one rounding to nearest with 24 bits or more, and of
    the six roundings of the percentage. *)
Definition g24 : Q := 8388609 # 8388608.
Definition G6 : Q := g24 * (g24 * g24) * (g24 * g24 * g24).

(** While disabled, further callbacks change nothing the resumed session
    depends on. *)
Record disabled_idle (saved0 start0 stop0 press0 : Z) (s : State) : Prop := {
  idle_disable : disable s = true;
  idle_state : chargeState s = S_DISABLED;
  idle_counter : counterEnabled s = false;
  idle_saved : savedRuntime s = saved0;
  idle_start : start s = start0;
  idle_stop : stop s = stop0;
  idle_lastPress : lastPress_disable s = press0
}.

(** The time elapsed since [t] as the sketch measures it: the difference
    of two [unsigned long] readings of [millis()]. *)
Definition elapsed_since (t millis : Z) : Z := to_uint32 (millis - t).

(** An event is an iteration of [loop] whose debounce test runs between
    [lo] and [hi] milliseconds after [t]. *)
Definition loop_elapsed (t lo hi : Z) (ev : Event) : Prop :=
  match ev with
  | Loop millis _ _ => lo <= elapsed_since t millis <= hi
  | Edge _ => False
  end.

(** An event is an iteration of [loop] whose debounce test runs more than
    [d] milliseconds after [t]. *)
Definition loop_later (t d : Z) (ev : Event) : Prop :=
  match ev with
  | Loop millis _ _ => d < elapsed_since t millis
  | Edge _ => False
  end.

(** ** The OLED status screen *)

(** Calls on the SH1106 display. *)
Inductive DisplayOp : Set :=
  | display_clear
  | drawString (x y : Z) (text : string)
  | drawProgressBar (x y width height : Z) (progress : Z)
  | display_display.

(** What [statusUpdate] obtains from outside the sketch: the two readings
    of [now()], TimeLib's [month] and [day] of the first reading,
    [WiFi.RSSI()] and [Blynk.connected()]. *)
Record Surroundings : Set := mkSurroundings {
  now_header : Z;
  month_header : Z;
  day_header : Z;
  now_elapsed : Z;
  WiFi_RSSI : Z;
  Blynk_connected : bool
}.

(** [String("WiFi ") + WiFi.RSSI() + "dBm"]. *)
Definition wifi_line (env : Surroundings) : string :=
  String.append "WiFi "
    (String.append (NilZero.string_of_int (Z.to_int (WiFi_RSSI env))) "dBm").

(** [sprintf(buf, "%02d/%02d %02d:%02d", month(timeNow), day(timeNow),
    hour(timeNow), minute(timeNow))]. *)
Definition date_line (env : Surroundings) : string :=
  let timeNow := now_header env in
  String.append (fmt_02d (month_header env))
    (String.append "/"
       (String.append (fmt_02d (day_header env))
          (String.append " "
             (String.append (fmt_02d (hour timeNow))
                (String.append ":" (fmt_02d (minute timeNow))))))).

(** [sprintf(buf, "Start %02d:%02d    Stop %02d:%02d", state.start / 3600,
    (state.start % 3600) / 60, state.stop / 3600, (state.stop % 3600) / 60)]. *)
Definition schedule_line (s : State) : string :=
  String.append "Start "
    (String.append (fmt_02d (Z.quot (start s) 3600))
       (String.append ":"
          (String.append (fmt_02d (Z.quot (Z.rem (start s) 3600) 60))
             (String.append "    Stop "
                (String.append (fmt_02d (Z.quot (stop s) 3600))
                   (String.append ":"
                      (fmt_02d (Z.quot (Z.rem (stop s) 3600) 60)))))))).

(** [sprintf(buf, "Runtime %02d:%02d   Blynk %s", scheduledSeconds / 3600,
    (scheduledSeconds % 3600) / 60, Blynk.connected() ? "OK" : "ERR")]. *)
Definition runtime_line (env : Surroundings) (s : State) : string :=
  let scheduledSeconds := to_int32 (stop s - start s) in
  String.append "Runtime "
    (String.append (fmt_02d (Z.quot scheduledSeconds 3600))
       (String.append ":"
          (String.append (fmt_02d (Z.quot (Z.rem scheduledSeconds 3600) 60))
             (String.append "   Blynk "
                (if Blynk_connected env then "OK" else "ERR"))))).

Definition statusUpdate (env : Surroundings) (cstate : ChargeState) (s : State)
  : list DisplayOp :=
  let runtime := to_int32 (now_elapsed env - runtimeStart s) in
  let buf := elapsed_string runtime in
  [display_clear;
   drawString 58 0 (wifi_line env);
   drawString 0 12 (date_line env);
   drawString 0 24 (schedule_line s);
   drawString 0 48 (runtime_line env s)]
  ++ match cstate with
     | S_QUIESCENT => [drawString 0 0 "Quiescent"]
     | S_CHARGING =>
         [drawString 0 0 "Charging";
          drawProgressBar 0 36 120 10 (int_of_float (chargeProgress s))]
     | S_MANUAL => [drawString 0 0 "Manual"; drawString 0 36 buf]
     | S_DISABLED => [drawString 0 0 "DISABLED"]
     end
  ++ [display_display].

(** The refresh at the end of an iteration of [loop]:
    [statusUpdate(state.chargeState)] on the state the iteration leaves. *)
Definition loop_statusUpdate (env : Surroundings) (millis : Z)
    (timer : option Clock) (incoming : list BlynkCmd) (s : State)
  : list DisplayOp :=
  let s' := exec (loop millis timer incoming) s in
  statusUpdate env (chargeState s') s'.

(** ** Vocabulary of the further properties *)

(** A number below 100 written with exactly two decimal digits. *)
Definition two_digits (z : Z) : string :=
  String (Ascii.ascii_of_nat (48 + Z.to_nat (z / 10)))
    (String (Ascii.ascii_of_nat (48 + Z.to_nat (z mod 10))) EmptyString).

(** Hours and minutes of a number of seconds, as [hh:mm]. *)
Definition hh_mm (t : Z) : string :=
  String.append (two_digits (t / 3600))
    (String.append ":" (two_digits (t mod 3600 / 60))).

(** Writes to the dashboard's progress bar. *)
Definition is_progress_write (e : Effect) : bool :=
  match e with
  | virtualWrite PROGRESS_BAR _ => true
  | _ => false
  end.

(** What the callback keeps true of the runtime accounting: the MOSFET
    flag is on exactly in the counted states, [savedRuntime] is a
    [uint32_t], and nothing is saved outside [S_CHARGING] and [S_DISABLED]. *)
Definition accounted (s : State) : Prop :=
  charging s = counted (chargeState s) /\
  0 <= savedRuntime s < 2 ^ 32 /\
  (chargeState s = S_MANUAL \/ chargeState s = S_QUIESCENT -> savedRuntime s = 0).

(** An event that leaves a debounce window opened at [t] open: an edge, or
    an iteration of [loop] no later than [DEBOUNCE_TIME] after [t]. *)
Definition inside_window (t : Z) (ev : Event) : Prop :=
  match ev with
  | Edge _ => True
  | Loop millis _ _ => t <= millis <= t + DEBOUNCE_TIME
  end.

(** * Properties *)

Arguments progress_percent : simpl never.
Arguments int_of_float : simpl never.
Arguments elapsed_string : simpl never.
Arguments to_uint32 : simpl never.
Arguments to_int32 : simpl never.
Arguments to_uint8 : simpl never.
Arguments currentTimeinSecs : simpl never.
Arguments wifi_line : simpl never.
Arguments date_line : simpl never.
Arguments schedule_line : simpl never.
Arguments runtime_line : simpl never.
Arguments fmt_02d : simpl never.

Ltac unfold_cmd :=
  unfold exec, trace, bind, read, modify, emit, when, ret; simpl.

Ltac destruct_state s :=
  destruct s as [st sp sel cs lcs man dis chg rs cp sv ce db dbs lpm lpd];
  simpl in *; subst.

Ltac in_list H :=
  simpl in H;
  repeat match type of H with
         | _ \/ _ => destruct H as [H | H]; [ try discriminate H | ]
         end.

Ltac break_if :=
  repeat match goal with
         | |- context [if ?b then _ else _] => destruct b eqn:?; simpl
         end.

(** ** Machine integers and the time of day *)

Lemma to_uint32_small (z : Z) : 0 <= z < 2 ^ 32 -> to_uint32 z = z.
Proof. intros H. unfold to_uint32. apply Z.mod_small. exact H. Qed.

Lemma to_uint32_range (z : Z) : 0 <= to_uint32 z < 2 ^ 32.
Proof. unfold to_uint32. apply Z.mod_pos_bound. lia. Qed.

Lemma to_uint32_add_r (a b : Z) : to_uint32 (a + to_uint32 b) = to_uint32 (a + b).
Proof. unfold to_uint32. apply Zplus_mod_idemp_r. Qed.

Lemma to_int32_small (z : Z) : - 2 ^ 31 <= z < 2 ^ 31 -> to_int32 z = z.
Proof. intros H. unfold to_int32. rewrite Z.mod_small; lia. Qed.

(** An [int] converted back to [unsigned long] loses nothing modulo 2^32:
    this is the subtraction [millis() - lastPress]. *)
Lemma to_uint32_sub_int32 (a b : Z) :
  to_uint32 (a - to_int32 b) = to_uint32 (a - b).
Proof.
  unfold to_uint32, to_int32.
  pose proof (Z.div_mod (b + 2 ^ 31) (2 ^ 32) ltac:(lia)) as D.
  replace (a - ((b + 2 ^ 31) mod 2 ^ 32 - 2 ^ 31))
    with (a - b + (b + 2 ^ 31) / 2 ^ 32 * 2 ^ 32) by lia.
  apply Z.mod_add. lia.
Qed.

(** [currentTimeinSecs] is the number of seconds since midnight. *)
Lemma currentTimeinSecs_mod (clk : Clock) :
  currentTimeinSecs clk = to_uint32 (t_entry clk) mod 86400.
Proof.
  unfold currentTimeinSecs, hour, minute, second.
  generalize (to_uint32 (t_entry clk)). intros t.
  rewrite Z.div_div by lia. change (60 * 60) with 3600.
  pose proof (Z.div_mod t 86400 ltac:(lia)) as H1.
  pose proof (Z.mod_pos_bound t 86400 ltac:(lia)) as B1.
  pose proof (Z.div_mod t 3600 ltac:(lia)) as H2.
  pose proof (Z.mod_pos_bound t 3600 ltac:(lia)) as B2.
  pose proof (Z.div_mod t 60 ltac:(lia)) as H3.
  pose proof (Z.mod_pos_bound t 60 ltac:(lia)) as B3.
  pose proof (Z.div_mod (t / 3600) 24 ltac:(lia)) as H4.
  pose proof (Z.mod_pos_bound (t / 3600) 24 ltac:(lia)) as B4.
  pose proof (Z.div_mod (t / 60) 60 ltac:(lia)) as H5.
  pose proof (Z.mod_pos_bound (t / 60) 60 ltac:(lia)) as B5.
  assert (E1 : t / 3600 / 24 = t / 86400) by (rewrite Z.div_div by lia; reflexivity).
  assert (E2 : t / 60 / 60 = t / 3600) by (rewrite Z.div_div by lia; reflexivity).
  rewrite E1 in H4. rewrite E2 in H5. lia.
Qed.

Lemma currentTimeinSecs_range (clk : Clock) : 0 <= currentTimeinSecs clk < 86400.
Proof. rewrite currentTimeinSecs_mod. apply Z.mod_pos_bound. lia. Qed.

(** ** The command monad *)

Lemma exec_seq (m k : Cmd unit) (s : State) :
  exec (m ;; k) s = exec k (exec m s).
Proof.
  unfold exec, bind. destruct (m s) as [[[] s1] o1]. simpl.
  destruct (k s1) as [[[] s2] o2]. reflexivity.
Qed.

Lemma trace_seq (m k : Cmd unit) (s : State) :
  trace (m ;; k) s = trace m s ++ trace k (exec m s).
Proof.
  unfold trace, exec, bind. destruct (m s) as [[[] s1] o1]. simpl.
  destruct (k s1) as [[[] s2] o2]. reflexivity.
Qed.

Lemma ChargeState_eqb_eq (a b : ChargeState) :
  ChargeState_eqb a b = true <-> a = b.
Proof. destruct a, b; simpl; split; intros H; congruence. Qed.

Lemma ChargeState_eqb_refl (a : ChargeState) : ChargeState_eqb a a = true.
Proof. destruct a; reflexivity. Qed.

(** ** The four branches of [powerManagement] *)

Lemma powerManagement_disabled (clk : Clock) (s : State) :
  disable s = true ->
  exec (powerManagement clk) s =
  set_manual false (set_charging false (set_counterEnabled false
    (set_lastChargeState S_DISABLED (set_chargeState S_DISABLED
       (if ChargeState_eqb (chargeState s) S_CHARGING
        then set_savedRuntime
               (to_uint32 (savedRuntime s + (t_session clk - runtimeStart s))) s
        else s))))).
Proof.
  intros H. destruct_state s.
  unfold powerManagement. unfold_cmd.
  destruct cs, lcs; simpl; reflexivity.
Qed.

Lemma powerManagement_charging (clk : Clock) (s : State) :
  disable s = false -> in_window s clk = true ->
  exec (powerManagement clk) s =
  let s1 := begin_session clk s in
  set_chargeProgress
    (progress_percent (to_uint32 (t_report clk - runtimeStart s1 + savedRuntime s))
       (to_int32 (stop s - start s)))
    (set_manual false (set_charging true
       (set_lastChargeState S_CHARGING (set_chargeState S_CHARGING s1)))).
Proof.
  intros H W. unfold in_window in W. destruct_state s.
  unfold powerManagement, begin_session. unfold_cmd. rewrite W. simpl.
  destruct ce, lcs; simpl; reflexivity.
Qed.

Lemma powerManagement_manual (clk : Clock) (s : State) :
  disable s = false -> in_window s clk = false -> manual s = true ->
  exec (powerManagement clk) s =
  set_savedRuntime 0 (set_charging true
    (set_lastChargeState S_MANUAL (set_chargeState S_MANUAL (begin_session clk s)))).
Proof.
  intros H W M. unfold in_window in W. destruct_state s.
  unfold powerManagement, begin_session. unfold_cmd. rewrite W. simpl.
  destruct ce, lcs; simpl; reflexivity.
Qed.

Lemma powerManagement_quiescent (clk : Clock) (s : State) :
  disable s = false -> in_window s clk = false -> manual s = false ->
  exec (powerManagement clk) s =
  set_savedRuntime 0 (set_charging false (set_counterEnabled false
    (set_lastChargeState S_QUIESCENT (set_chargeState S_QUIESCENT s)))).
Proof.
  intros H W M. unfold in_window in W. destruct_state s.
  unfold powerManagement. unfold_cmd. rewrite W. simpl.
  destruct lcs; simpl; reflexivity.
Qed.

Ltac pm_cases s clk :=
  let D := fresh "D" in
  let W := fresh "W" in
  let M := fresh "M" in
  destruct (disable s) eqn:D;
  [ rewrite (powerManagement_disabled clk s D)
  | destruct (in_window s clk) eqn:W;
    [ rewrite (powerManagement_charging clk s D W)
    | destruct (manual s) eqn:M;
      [ rewrite (powerManagement_manual clk s D W M)
      | rewrite (powerManagement_quiescent clk s D W M) ] ] ].

Lemma powerManagement_chargeState (clk : Clock) (s : State) :
  chargeState (exec (powerManagement clk) s) = decide s clk.
Proof.
  unfold decide. pm_cases s clk; unfold begin_session;
    destruct_state s; break_if; reflexivity.
Qed.

Lemma powerManagement_charging_flag (clk : Clock) (s : State) :
  charging (exec (powerManagement clk) s) = counted (decide s clk).
Proof.
  unfold decide. pm_cases s clk; unfold begin_session;
    destruct_state s; break_if; reflexivity.
Qed.

(** What a callback never touches. *)
Lemma powerManagement_frame (clk : Clock) (s : State) :
  let s' := exec (powerManagement clk) s in
  start s' = start s /\ stop s' = stop s /\ disable s' = disable s /\
  menuSelection s' = menuSelection s /\
  debounce s' = debounce s /\ debounceStart s' = debounceStart s /\
  lastPress_manual s' = lastPress_manual s /\
  lastPress_disable s' = lastPress_disable s.
Proof.
  pm_cases s clk; unfold begin_session; destruct_state s; break_if;
    repeat split; reflexivity.
Qed.

Lemma powerManagement_in_window (clk clk' : Clock) (s : State) :
  in_window (exec (powerManagement clk) s) clk' = in_window s clk'.
Proof.
  unfold in_window.
  destruct (powerManagement_frame clk s) as (H1 & H2 & _).
  rewrite H1, H2. reflexivity.
Qed.

(** After a callback the bookkeeping is consistent, whatever it was before. *)
Lemma powerManagement_bookkeeping (clk : Clock) (s : State) :
  let s' := exec (powerManagement clk) s in
  lastChargeState s' = chargeState s' /\
  counterEnabled s' = counted (chargeState s').
Proof.
  pm_cases s clk; unfold begin_session; destruct_state s; break_if;
    split; reflexivity.
Qed.

(** The status LED is called exactly when the derived state differs from
    [lastChargeState]. *)
Lemma powerManagement_notifications (clk : Clock) (s : State) :
  notifications (trace (powerManagement clk) s) =
  if ChargeState_eqb (decide s clk) (lastChargeState s) then []
  else announce (decide s clk).
Proof.
  unfold decide, in_window. destruct_state s.
  unfold powerManagement. unfold_cmd.
  destruct dis; simpl.
  - destruct cs, lcs; reflexivity.
  - destruct ((st <=? currentTimeinSecs clk) && (currentTimeinSecs clk <? sp));
      simpl; [ | destruct man; simpl ];
      destruct ce, lcs; reflexivity.
Qed.

(** The trace of the charging branch ends with the progress bar update. *)
Lemma powerManagement_charging_trace (clk : Clock) (s : State) :
  disable s = false -> in_window s clk = true ->
  exists tr,
    trace (powerManagement clk) s =
    tr ++ [virtualWrite PROGRESS_BAR
             [VInt (int_of_float (chargeProgress (exec (powerManagement clk) s)))]].
Proof.
  intros H W. unfold in_window in W. destruct_state s.
  unfold powerManagement. unfold_cmd. rewrite W. simpl.
  destruct ce, lcs; simpl;
    match goal with
    | |- exists tr, [?a] = _ => exists []; reflexivity
    | |- exists tr, [?a; ?b; ?c; ?d; ?e] = _ => exists [a; b; c; d]; reflexivity
    end.
Qed.

(** ** The debounce gate *)

Lemma manualOverride_accepts (millis : Z) (s : State) :
  debounce s = false ->
  exec (manualOverride millis) s =
  set_manual (negb (manual s)) (set_debounceStart millis (set_debounce true s)).
Proof. intros H. destruct_state s. reflexivity. Qed.

Lemma manualOverride_drops (millis : Z) (s : State) :
  debounce s = true -> exec (manualOverride millis) s = s.
Proof. intros H. destruct_state s. reflexivity. Qed.

Lemma loop_debounce_exec (millis : Z) (s : State) :
  exec (loop_debounce millis) s =
  if debounce s && (DEBOUNCE_TIME <? to_uint32 (millis - debounceStart s))
  then set_debounce false s else s.
Proof.
  destruct_state s. unfold loop_debounce. unfold_cmd.
  destruct (db && (DEBOUNCE_TIME <? to_uint32 (millis - dbs))); reflexivity.
Qed.

(** ** The dashboard handlers leave the session bookkeeping alone *)

Lemma same_session_refl (s : State) : same_session s s.
Proof. repeat split. Qed.

Lemma same_session_trans (s1 s2 s3 : State) :
  same_session s1 s2 -> same_session s2 s3 -> same_session s1 s3.
Proof.
  unfold same_session. intros H12 H23.
  repeat match goal with H : _ /\ _ |- _ => destruct H end.
  repeat split; congruence.
Qed.

Lemma BLYNK_WRITE_SCHEDULE_exec (schedule : TimeInput) (s : State) :
  exec (BLYNK_WRITE_SCHEDULE schedule) s =
  let s1 := if hasStartTime schedule && negb (param0 schedule =? -1)
            then set_start (param0 schedule) s else s in
  let s2 := if hasStopTime schedule && negb (param1 schedule =? -1)
            then set_stop (param1 schedule) s1 else s1 in
  set_menuSelection 4 s2.
Proof.
  destruct schedule as [hs p0 he p1]. destruct_state s.
  unfold BLYNK_WRITE_SCHEDULE. unfold_cmd.
  destruct hs, he; simpl;
    destruct (p0 =? -1); simpl; destruct (p1 =? -1); simpl;
    break_if; reflexivity.
Qed.

Lemma dispatch_same_session (c : BlynkCmd) (s : State) :
  same_session s (exec (dispatch c) s).
Proof.
  destruct c as [schedule | param | mc ms | mc ms]; simpl.
  - rewrite BLYNK_WRITE_SCHEDULE_exec. destruct_state s.
    break_if; repeat split.
  - destruct_state s. unfold BLYNK_WRITE_MENU. unfold_cmd.
    destruct (to_uint8 param) as [| [[? | ? |] | [? | ? |] |] | ?]; simpl;
      repeat split.
  - destruct_state s. unfold BLYNK_WRITE_MANUAL_OVERRIDE. unfold_cmd.
    break_if; repeat split.
  - destruct_state s. unfold BLYNK_WRITE_FORCE_DISABLE. unfold_cmd.
    break_if; repeat split.
Qed.

Lemma Blynk_run_same_session (incoming : list BlynkCmd) (s : State) :
  same_session s (exec (Blynk_run incoming) s).
Proof.
  revert s. induction incoming as [| c rest IH]; intros s; simpl.
  - apply same_session_refl.
  - rewrite exec_seq.
    eapply same_session_trans; [ apply dispatch_same_session | apply IH ].
Qed.

(** ** One iteration of [loop], decomposed *)

Lemma loop_exec (millis : Z) (timer : option Clock) (incoming : list BlynkCmd)
    (s : State) :
  exec (loop millis timer incoming) s =
  exec (Blynk_run incoming) (exec (timer_run timer) (exec (loop_debounce millis) s)).
Proof.
  unfold loop. fold (timer_run timer).
  rewrite !exec_seq.
  generalize (exec (Blynk_run incoming)
                (exec (timer_run timer) (exec (loop_debounce millis) s))).
  intros s'. reflexivity.
Qed.

Lemma timer_run_debounce (timer : option Clock) (s : State) :
  debounce (exec (timer_run timer) s) = debounce s /\
  debounceStart (exec (timer_run timer) s) = debounceStart s.
Proof.
  destruct timer as [clk |]; simpl.
  - destruct (powerManagement_frame clk s) as (_ & _ & _ & _ & H1 & H2 & _).
    split; assumption.
  - split; reflexivity.
Qed.

(** Only the head of [loop] acts on the debounce window. *)
Lemma loop_debounce_only (millis : Z) (timer : option Clock)
    (incoming : list BlynkCmd) (s : State) :
  debounce (exec (loop millis timer incoming) s)
  = debounce (exec (loop_debounce millis) s) /\
  debounceStart (exec (loop millis timer incoming) s) = debounceStart s.
Proof.
  rewrite loop_exec.
  destruct (Blynk_run_same_session incoming
              (exec (timer_run timer) (exec (loop_debounce millis) s)))
    as (_ & _ & _ & _ & _ & _ & B1 & B2).
  destruct (timer_run_debounce timer (exec (loop_debounce millis) s)) as [T1 T2].
  rewrite B1, B2, T1, T2. split; [ reflexivity | ].
  rewrite loop_debounce_exec. destruct_state s. break_if; reflexivity.
Qed.

(** Each iteration of [loop] ends by driving the ENABLE pin with
    [state.charging]. *)
Lemma loop_drives_enable (millis : Z) (timer : option Clock)
    (incoming : list BlynkCmd) (s : State) :
  exists tr,
    trace (loop millis timer incoming) s =
    tr ++ [digitalWrite_ENABLE (power_enable (exec (loop millis timer incoming) s))].
Proof.
  rewrite loop_exec. unfold loop. fold (timer_run timer).
  rewrite !trace_seq.
  exists (trace (loop_debounce millis) s
          ++ trace (timer_run timer) (exec (loop_debounce millis) s)
          ++ trace (Blynk_run incoming)
               (exec (timer_run timer) (exec (loop_debounce millis) s))).
  rewrite <- !app_assoc. reflexivity.
Qed.

(** ** Invariants of reachable states *)

Lemma same_session_consistent (s s' : State) :
  same_session s s' -> consistent s -> consistent s'.
Proof.
  unfold same_session, consistent.
  intros (H1 & H2 & H3 & _) [C1 C2]. split; congruence.
Qed.

Lemma step_consistent (ev : Event) (s : State) :
  consistent s -> consistent (exec (step ev) s).
Proof.
  intros C. destruct ev as [millis | millis timer incoming]; simpl.
  - destruct (debounce s) eqn:D.
    + rewrite manualOverride_drops by exact D. exact C.
    + rewrite manualOverride_accepts by exact D.
      unfold consistent in *. destruct_state s. exact C.
  - rewrite loop_exec.
    eapply same_session_consistent; [ apply Blynk_run_same_session | ].
    destruct timer as [clk |]; simpl.
    + apply powerManagement_bookkeeping.
    + change (exec (ret tt) (exec (loop_debounce millis) s))
        with (exec (loop_debounce millis) s).
      rewrite loop_debounce_exec.
      unfold consistent in *. destruct_state s. break_if; exact C.
Qed.

Lemma reachable_consistent (s : State) : reachable s -> consistent s.
Proof.
  induction 1 as [| s ev R IH].
  - split; reflexivity.
  - apply step_consistent. exact IH.
Qed.

Lemma in_window_true_iff (s : State) (clk : Clock) :
  in_window s clk = true <-> start s <= currentTimeinSecs clk < stop s.
Proof.
  unfold in_window. rewrite andb_true_iff, Z.leb_le, Z.ltb_lt. reflexivity.
Qed.

Lemma in_window_false_iff (s : State) (clk : Clock) :
  in_window s clk = false <-> ~ (start s <= currentTimeinSecs clk < stop s).
Proof.
  rewrite <- in_window_true_iff. destruct (in_window s clk); split; congruence.
Qed.

(** ** Accuracy of the floating-point percentage

    The percentage is computed with one binary32 division, one binary64
    multiplication and three conversions.  Each of them is a rounding to
    nearest, so each changes the value by a factor of at most
    [1 + 2^-23]; the result is within a factor [1 + 2^-20] of the exact
    quotient. *)

(** *** Number of binary digits *)

Lemma digits2_pos_size (p : positive) : digits2_pos p = Pos.size p.
Proof. induction p; simpl; congruence. Qed.

(** [Zdigits2 m] is the number of binary digits of [m]. *)
Lemma Zdigits2_bounds (m : Z) :
  0 < m -> 2 ^ (Zdigits2 m - 1) <= m < 2 ^ Zdigits2 m.
Proof.
  intros H. destruct m as [| p | p]; try lia.
  change (Zdigits2 (Zpos p)) with (Zpos (digits2_pos p)).
  rewrite digits2_pos_size.
  pose proof (Pos.size_gt p) as G. pose proof (Pos.size_le p) as L.
  apply Pos2Z.pos_lt_pos in G. apply Pos2Z.pos_le_pos in L.
  rewrite Pos2Z.inj_pow in G, L.
  change (Z.pos 2) with 2 in *. change (Z.pos p~0) with (2 * Z.pos p) in L.
  replace (2 ^ Z.pos (Pos.size p)) with (2 * 2 ^ (Z.pos (Pos.size p) - 1)) in L.
  - lia.
  - rewrite <- Z.pow_succ_r by lia. f_equal. lia.
Qed.

Lemma Zdigits2_unique (m d : Z) :
  2 ^ (d - 1) <= m < 2 ^ d -> 0 < m -> Zdigits2 m = d.
Proof.
  intros B H. pose proof (Zdigits2_bounds m H) as B'.
  destruct (Z.lt_trichotomy (Zdigits2 m) d) as [L | [E | G]]; [ | exact E | ].
  - assert (2 ^ Zdigits2 m <= 2 ^ (d - 1)) by (apply Z.pow_le_mono_r; lia). lia.
  - assert (0 <= d \/ d < 0) as [P | N] by lia.
    + assert (2 ^ d <= 2 ^ (Zdigits2 m - 1)) by (apply Z.pow_le_mono_r; lia). lia.
    + rewrite (Z.pow_neg_r 2 d) in B by lia. lia.
Qed.

Lemma Zdigits2_pos (m : Z) : 0 < m -> 0 < Zdigits2 m.
Proof. destruct m; simpl; lia. Qed.

Lemma shr_1_m (r : shr_record) :
  0 <= shr_m r -> shr_m (shr_1 r) = shr_m r / 2.
Proof.
  destruct r as [m r s]. cbn [shr_m]. intros H.
  destruct m as [| [p | p |] | p]; cbn [shr_1 shr_m]; try lia.
  - reflexivity.
  - apply Z.div_unique with 1; lia.
  - apply Z.div_unique with 0; lia.
  - reflexivity.
Qed.

Lemma iter_pos_shr_1_m (p : positive) :
  forall r, 0 <= shr_m r -> shr_m (iter_pos shr_1 p r) = shr_m r / 2 ^ Zpos p.
Proof.
  induction p as [p IH | p IH |]; intros r H; simpl iter_pos.
  - assert (H1 : 0 <= shr_m (shr_1 r)) by (rewrite shr_1_m by lia; apply Z.div_pos; lia).
    assert (H2 : 0 <= shr_m (iter_pos shr_1 p (shr_1 r)))
      by (rewrite IH by lia; apply Z.div_pos; lia).
    rewrite IH, IH, shr_1_m by lia.
    rewrite !Z.div_div by lia. f_equal.
    rewrite Pos2Z.inj_xI. rewrite <- !Z.pow_add_r, <- Z.pow_succ_r by lia. f_equal. lia.
  - assert (H2 : 0 <= shr_m (iter_pos shr_1 p r))
      by (rewrite IH by lia; apply Z.div_pos; lia).
    rewrite IH, IH by lia.
    rewrite !Z.div_div by lia. f_equal.
    rewrite Pos2Z.inj_xO. rewrite <- !Z.pow_add_r by lia. f_equal. lia.
  - rewrite shr_1_m by lia. reflexivity.
Qed.

Lemma shr_m_of_loc (m : Z) (l : location) : shr_m (shr_record_of_loc m l) = m.
Proof. destruct l as [| []]; reflexivity. Qed.

(** Shifting right by [k] digits divides the mantissa by [2^k]. *)
Lemma shr_spec (m e k : Z) (l : location) :
  0 <= m -> 0 <= k ->
  exists r, shr (shr_record_of_loc m l) e k = (r, e + k) /\ shr_m r = m / 2 ^ k.
Proof.
  intros Hm Hk. destruct k as [| p | p]; try lia.
  - exists (shr_record_of_loc m l). cbn [shr]. rewrite Z.add_0_r.
    split; [ reflexivity | ]. rewrite shr_m_of_loc, Z.pow_0_r, Z.div_1_r. reflexivity.
  - exists (iter_pos shr_1 p (shr_record_of_loc m l)). cbn [shr].
    split; [ reflexivity | ].
    rewrite iter_pos_shr_1_m, shr_m_of_loc by (rewrite shr_m_of_loc; exact Hm).
    reflexivity.
Qed.

(** Rounding to nearest keeps the truncated mantissa or adds one. *)
Lemma round_nearest_even_cases (m : Z) (l : location) :
  round_nearest_even m l = m \/ round_nearest_even m l = m + 1.
Proof.
  unfold round_nearest_even. destruct l as [| []]; auto.
  destruct (Z.even m); auto.
Qed.

Section Rounding.

Variables prec emax : Z.
Hypothesis prec_gt_1 : 1 < prec.

(** Rounding a mantissa [M] of at least [prec] digits, away from overflow
    and underflow: the result is finite and normalised, and it lies with
    [M] between two consecutive multiples [t] and [t + 1] of the last
    digit kept. *)
Lemma binary_round_aux_bounds (sx : bool) (M E : Z) (lx : location) :
  0 < M -> prec <= Zdigits2 M ->
  emin prec emax <= Zdigits2 M + E - prec ->
  Zdigits2 M + E + 1 <= emax ->
  exists m e t,
    binary_round_aux prec emax sx M E lx = S754_finite sx m e /\
    2 ^ (prec - 1) <= Zpos m < 2 ^ prec /\
    (e = Zdigits2 M + E - prec \/ e = Zdigits2 M + E - prec + 1) /\
    2 ^ (prec - 1) <= t /\
    t * 2 ^ (Zdigits2 M - prec) <= M < (t + 1) * 2 ^ (Zdigits2 M - prec) /\
    t * 2 ^ (Zdigits2 M - prec) <= Zpos m * 2 ^ (e - E)
      <= (t + 1) * 2 ^ (Zdigits2 M - prec).
Proof.
  intros HM Hd Hmin Hmax.
  set (dM := Zdigits2 M) in *. set (K := dM - prec).
  assert (HK : 0 <= K) by (unfold K; lia).
  pose proof (Zdigits2_bounds M HM) as BM. fold dM in BM.
  set (t := M / 2 ^ K).
  assert (P2K : 0 < 2 ^ K) by (apply Z.pow_pos_nonneg; lia).
  assert (Ht : t * 2 ^ K <= M < (t + 1) * 2 ^ K).
  { unfold t. pose proof (Z.div_mod M (2 ^ K) ltac:(lia)).
    pose proof (Z.mod_pos_bound M (2 ^ K) P2K). nia. }
  assert (Ep : 2 ^ dM = 2 ^ K * 2 ^ prec).
  { rewrite <- Z.pow_add_r by lia. f_equal. unfold K. lia. }
  assert (Ep1 : 2 ^ (dM - 1) = 2 ^ K * 2 ^ (prec - 1)).
  { rewrite <- Z.pow_add_r by lia. f_equal. unfold K. lia. }
  assert (Pp1 : 0 < 2 ^ (prec - 1)) by (apply Z.pow_pos_nonneg; lia).
  assert (Epp : 2 ^ prec = 2 * 2 ^ (prec - 1)).
  { rewrite <- Z.pow_succ_r by lia. f_equal. lia. }
  assert (Bt : 2 ^ (prec - 1) <= t < 2 ^ prec) by nia.
  unfold binary_round_aux, shr_fexp.
  assert (F1 : fexp prec emax (Zdigits2 M + E) - E = K).
  { unfold fexp. fold dM. rewrite Z.max_l by lia. unfold K. lia. }
  rewrite F1.
  destruct (shr_spec M E K lx ltac:(lia) HK) as (r1 & S1 & M1).
  rewrite S1. fold t in M1. rewrite M1.
  set (m2 := round_nearest_even t (loc_of_shr_record r1)).
  assert (C2 : m2 = t \/ m2 = t + 1) by apply round_nearest_even_cases.
  assert (Hm2 : 0 < m2) by lia.
  destruct (Z_lt_le_dec m2 (2 ^ prec)) as [Small | Big].
  - assert (D2 : Zdigits2 m2 = prec) by (apply Zdigits2_unique; lia).
    assert (F2 : fexp prec emax (Zdigits2 m2 + (E + K)) - (E + K) = 0).
    { rewrite D2. unfold fexp. rewrite Z.max_l by (unfold K; lia). lia. }
    rewrite F2.
    destruct (shr_spec m2 (E + K) 0 loc_Exact ltac:(lia) ltac:(lia)) as (r2 & S2 & M2).
    rewrite S2, M2. rewrite Z.pow_0_r, Z.div_1_r.
    destruct m2 as [| pm | pm] eqn:Em2; try lia.
    assert (L : (E + K + 0 <=? emax - prec) = true)
      by (apply Z.leb_le; unfold K; lia).
    rewrite L. exists pm, (E + K + 0), t.
    split; [ reflexivity | ]. split; [ lia | ].
    split; [ left; unfold K; lia | ].
    split; [ lia | ]. split; [ fold K; exact Ht | ].
    fold K. replace (E + K + 0 - E) with K by lia. nia.
  - assert (E2 : m2 = 2 ^ prec) by lia.
    assert (D2 : Zdigits2 m2 = prec + 1).
    { apply Zdigits2_unique; [ | lia ]. rewrite E2.
      replace (prec + 1 - 1) with prec by lia.
      replace (2 ^ (prec + 1)) with (2 * 2 ^ prec)
        by (rewrite <- Z.pow_succ_r by lia; f_equal; lia).
      lia. }
    assert (F2 : fexp prec emax (Zdigits2 m2 + (E + K)) - (E + K) = 1).
    { rewrite D2. unfold fexp. rewrite Z.max_l by (unfold K; lia). lia. }
    rewrite F2.
    destruct (shr_spec m2 (E + K) 1 loc_Exact ltac:(lia) ltac:(lia)) as (r2 & S2 & M2).
    rewrite S2, M2, E2, Epp. change (2 ^ 1) with 2.
    rewrite Z.mul_comm, Z.div_mul by lia.
    destruct (2 ^ (prec - 1)) as [| pm | pm] eqn:Epm; try lia.
    assert (L : (E + K + 1 <=? emax - prec) = true)
      by (apply Z.leb_le; unfold K; lia).
    rewrite L. exists pm, (E + K + 1), t.
    split; [ reflexivity | ]. split; [ lia | ].
    split; [ right; unfold K; lia | ].
    split; [ lia | ]. split; [ fold K; exact Ht | ].
    fold K. replace (E + K + 1 - E) with (K + 1) by lia.
    replace (2 ^ (K + 1)) with (2 * 2 ^ K)
      by (rewrite <- Z.pow_succ_r by lia; f_equal; lia).
    nia.
Qed.

End Rounding.

(** *** Rounding, in rational arithmetic *)

Lemma Qpow2_pos (e : Z) : (0 < 2 ^ e)%Q.
Proof. apply Qpower_0_lt. reflexivity. Qed.

Lemma Qpow2_add (a b : Z) : (2 ^ (a + b) == 2 ^ a * 2 ^ b)%Q.
Proof. apply Qpower_plus. discriminate. Qed.

Lemma inject_Z_pow2 (k : Z) : 0 <= k -> (inject_Z (2 ^ k) == 2 ^ k)%Q.
Proof. intros H. rewrite Zpower_Qpower by exact H. reflexivity. Qed.

Lemma Qval_shift (m : positive) (e E : Z) :
  E <= e -> (Qval m e == inject_Z (Zpos m * 2 ^ (e - E)) * 2 ^ E)%Q.
Proof.
  intros H. unfold Qval. rewrite inject_Z_mult, inject_Z_pow2 by lia.
  replace e with ((e - E) + E) at 1 by lia. rewrite Qpow2_add. ring.
Qed.

Section RoundingQ.

Variables prec emax : Z.
Hypothesis prec_ge_24 : 24 <= prec.

(** The same with the exact value [X] that [M] truncates: the result is
    within a factor [1 + 2^-23] of [X]. *)
Lemma binary_round_aux_near (sx : bool) (M E : Z) (lx : location) (X : Q) :
  0 < M -> prec <= Zdigits2 M ->
  emin prec emax <= Zdigits2 M + E - prec ->
  Zdigits2 M + E + 1 <= emax ->
  (inject_Z M <= X <= inject_Z M + 1)%Q ->
  exists m e,
    binary_round_aux prec emax sx M E lx = S754_finite sx m e /\
    2 ^ (prec - 1) <= Zpos m < 2 ^ prec /\
    (e = Zdigits2 M + E - prec \/ e = Zdigits2 M + E - prec + 1) /\
    near g24 (Qval m e) (X * 2 ^ E).
Proof.
  intros HM Hd Hmin Hmax HX.
  destruct (binary_round_aux_bounds prec emax ltac:(lia) sx M E lx HM Hd Hmin Hmax)
    as (m & e & t & Eq & Cm & Ce & Bt & BM & BR).
  exists m, e.
  split; [ exact Eq | split; [ exact Cm | split; [ exact Ce | ] ] ].
  set (K := Zdigits2 M - prec) in *.
  assert (HK : 0 <= K) by (unfold K; lia).
  assert (P2K : 0 < 2 ^ K) by (apply Z.pow_pos_nonneg; lia).
  assert (P23 : 2 ^ 23 <= 2 ^ (prec - 1)) by (apply Z.pow_le_mono_r; lia).
  assert (W : 2 ^ K * 2 ^ 23 <= t * 2 ^ K) by nia.
  set (R := Zpos m * 2 ^ (e - E)) in *.
  assert (Ee : E <= e) by lia.
  assert (VQ : (Qval m e == inject_Z R * 2 ^ E)%Q) by (apply Qval_shift; exact Ee).
  pose proof (Qpow2_pos E) as PE.
  assert (I1 : (inject_Z (t * 2 ^ K) <= inject_Z M)%Q) by (rewrite <- Zle_Qle; lia).
  assert (I2 : (inject_Z M + 1 <= inject_Z (t * 2 ^ K) + inject_Z (2 ^ K))%Q).
  { change (inject_Z M + 1)%Q with (inject_Z M + inject_Z 1)%Q.
    rewrite <- !inject_Z_plus, <- Zle_Qle. lia. }
  assert (I3 : (inject_Z (t * 2 ^ K) <= inject_Z R)%Q) by (rewrite <- Zle_Qle; lia).
  assert (I4 : (inject_Z R <= inject_Z (t * 2 ^ K) + inject_Z (2 ^ K))%Q).
  { rewrite <- inject_Z_plus, <- Zle_Qle. lia. }
  assert (I5 : (inject_Z (2 ^ K) * 8388608 <= inject_Z (t * 2 ^ K))%Q).
  { change 8388608%Q with (inject_Z (2 ^ 23)).
    rewrite <- inject_Z_mult, <- Zle_Qle. exact W. }
  revert I1 I2 I3 I4 I5 HX VQ PE.
  generalize (inject_Z (t * 2 ^ K)) (inject_Z (2 ^ K)) (inject_Z R) (inject_Z M)
    (2 ^ E)%Q (Qval m e).
  intros a w r mq pe v I1 I2 I3 I4 I5 HX VQ PE.
  unfold near, g24. rewrite VQ.
  assert (A1 : (r <= X * (8388609 # 8388608))%Q) by lra.
  assert (A2 : (X <= r * (8388609 # 8388608))%Q) by lra.
  split.
  - setoid_replace (X * pe * (8388609 # 8388608))%Q
      with (X * (8388609 # 8388608) * pe)%Q by ring.
    apply Qmult_le_compat_r; [ exact A1 | lra ].
  - setoid_replace (r * pe * (8388609 # 8388608))%Q
      with (r * (8388609 # 8388608) * pe)%Q by ring.
    apply Qmult_le_compat_r; [ exact A2 | lra ].
Qed.

End RoundingQ.

Lemma iter_xO_pow2 (m d : positive) :
  Zpos (Pos.iter xO m d) = Zpos m * 2 ^ Zpos d.
Proof.
  induction d as [| d IH] using Pos.peano_ind.
  - simpl. lia.
  - rewrite Pos.iter_succ, Pos2Z.inj_xO, IH, Pos2Z.inj_succ, Z.pow_succ_r by lia.
    ring.
Qed.

Lemma near_refl_g24 (a : Q) : (0 <= a)%Q -> near g24 a a.
Proof. intros H. unfold near, g24. split; lra. Qed.

Section BinaryRound.

Variables prec emax : Z.
Hypothesis prec_ge_24 : 24 <= prec.

(** Rounding a finite number to a format of 24 bits or more, away from
    overflow and underflow. *)
Lemma binary_round_near (s : bool) (mx : positive) (ex : Z) :
  emin prec emax <= Zdigits2 (Zpos mx) + ex - prec ->
  Zdigits2 (Zpos mx) + ex + 1 <= emax ->
  exists m e,
    binary_round prec emax s mx ex = S754_finite s m e /\
    2 ^ (prec - 1) <= Zpos m < 2 ^ prec /\
    (e = Zdigits2 (Zpos mx) + ex - prec \/ e = Zdigits2 (Zpos mx) + ex - prec + 1) /\
    near g24 (Qval m e) (Qval mx ex).
Proof.
  intros Hmin Hmax.
  pose proof (Zdigits2_bounds (Zpos mx) ltac:(lia)) as Bx.
  set (dx := Zdigits2 (Zpos mx)) in *.
  unfold binary_round.
  change (Z.pos (digits2_pos mx)) with dx.
  assert (F : fexp prec emax (dx + ex) = dx + ex - prec)
    by (unfold fexp; rewrite Z.max_l by lia; reflexivity).
  rewrite F. unfold shl_align.
  replace (dx + ex - prec - ex) with (dx - prec) by lia.
  destruct (dx - prec) as [| k | d] eqn:Ek.
  - destruct (binary_round_aux_near prec emax prec_ge_24 s (Zpos mx) ex loc_Exact
                (inject_Z (Zpos mx))) as (m & e & Eq & Cm & Ce & N);
      fold dx; try lia; try (split; lra).
    exists m, e. fold dx in Ce. repeat split; try assumption; try lia; apply N.
  - destruct (binary_round_aux_near prec emax prec_ge_24 s (Zpos mx) ex loc_Exact
                (inject_Z (Zpos mx))) as (m & e & Eq & Cm & Ce & N);
      fold dx; try lia; try (split; lra).
    exists m, e. fold dx in Ce. repeat split; try assumption; try lia; apply N.
  - set (mz := Pos.iter xO mx d).
    assert (Emz : Zpos mz = Zpos mx * 2 ^ Zpos d) by apply iter_xO_pow2.
    assert (Pd : 0 < 2 ^ Zpos d) by (apply Z.pow_pos_nonneg; lia).
    assert (E1 : 2 ^ prec = 2 ^ dx * 2 ^ Zpos d).
    { rewrite <- Z.pow_add_r by (unfold dx; simpl; lia). f_equal. lia. }
    assert (E2 : 2 ^ (prec - 1) = 2 ^ (dx - 1) * 2 ^ Zpos d).
    { assert (0 < dx) by (unfold dx; simpl; lia).
      rewrite <- Z.pow_add_r by lia. f_equal. lia. }
    assert (Dz : Zdigits2 (Zpos mz) = prec) by (apply Zdigits2_unique; nia).
    destruct (binary_round_aux_near prec emax prec_ge_24 s (Zpos mz)
                (dx + ex - prec) loc_Exact (inject_Z (Zpos mz)))
      as (m & e & Eq & Cm & Ce & N);
      rewrite ?Dz; try lia; try (split; lra).
    exists m, e. rewrite Dz in Ce.
    split; [ exact Eq | split; [ exact Cm | split; [ lia | ] ] ].
    assert (V : (inject_Z (Zpos mz) * 2 ^ (dx + ex - prec) == Qval mx ex)%Q).
    { rewrite Emz, inject_Z_mult, inject_Z_pow2 by lia. unfold Qval.
      replace ex with (Zpos d + (dx + ex - prec)) at 2 by lia.
      rewrite Qpow2_add. ring. }
    unfold near in *. rewrite V in N. exact N.
Qed.

End BinaryRound.

Lemma near_trans (c1 c2 a b d : Q) :
  (0 <= c1)%Q -> (0 <= c2)%Q -> near c1 a b -> near c2 b d -> near (c1 * c2) a d.
Proof.
  unfold near. intros P1 P2 [A1 A2] [B1 B2]. split.
  - apply Qle_trans with (b * c1)%Q; [ exact A1 | ].
    setoid_replace (d * (c1 * c2))%Q with (d * c2 * c1)%Q by ring.
    apply Qmult_le_compat_r; assumption.
  - apply Qle_trans with (b * c2)%Q; [ exact B2 | ].
    setoid_replace (a * (c1 * c2))%Q with (a * c1 * c2)%Q by ring.
    apply Qmult_le_compat_r; assumption.
Qed.

Lemma near_mul_r (c a b k : Q) :
  (0 <= k)%Q -> near c a b -> near c (a * k) (b * k).
Proof.
  unfold near. intros P [A1 A2]. split.
  - setoid_replace (b * k * c)%Q with (b * c * k)%Q by ring.
    apply Qmult_le_compat_r; assumption.
  - setoid_replace (a * k * c)%Q with (a * c * k)%Q by ring.
    apply Qmult_le_compat_r; assumption.
Qed.

Lemma near_sym (c a b : Q) : near c a b -> near c b a.
Proof. unfold near. intros [A B]. split; assumption. Qed.

Lemma near_eq (c a a' b b' : Q) :
  (a == a')%Q -> (b == b')%Q -> near c a b -> near c a' b'.
Proof. unfold near. intros Ea Eb [A B]. rewrite <- Ea, <- Eb. split; assumption. Qed.

Lemma Qval_pos (m : positive) (e : Z) : (0 < Qval m e)%Q.
Proof.
  unfold Qval. apply Qmult_lt_0_compat; [ | apply Qpow2_pos ].
  change 0%Q with (inject_Z 0). rewrite <- Zlt_Qlt. lia.
Qed.

Lemma canonical_digits (prec : Z) (m : positive) :
  0 < prec -> 2 ^ (prec - 1) <= Zpos m < 2 ^ prec -> Zdigits2 (Zpos m) = prec.
Proof. intros H B. apply Zdigits2_unique; [ exact B | lia ]. Qed.

(** The binary32 division of two normalised positive numbers. *)
Lemma SFdiv_near (m1 m2 : positive) (e1 e2 : Z) :
  2 ^ 23 <= Zpos m1 < 2 ^ 24 -> 2 ^ 23 <= Zpos m2 < 2 ^ 24 ->
  -60 <= e1 <= 60 -> -60 <= e2 <= 60 ->
  exists m e,
    SFdiv 24 128 (S754_finite false m1 e1) (S754_finite false m2 e2)
    = S754_finite false m e /\
    2 ^ 23 <= Zpos m < 2 ^ 24 /\
    e1 - e2 - 24 <= e <= e1 - e2 - 22 /\
    near g24 (Qval m e * Qval m2 e2) (Qval m1 e1).
Proof.
  intros C1 C2 B1 B2.
  pose proof (canonical_digits 24 m1 ltac:(lia) C1) as D1.
  pose proof (canonical_digits 24 m2 ltac:(lia) C2) as D2.
  unfold SFdiv, SFdiv_core_binary. rewrite D1, D2.
  assert (Fe : Z.min (fexp 24 128 (24 + e1 - (24 + e2))) (e1 - e2) = e1 - e2 - 24)
    by (unfold fexp, emin; lia).
  rewrite Fe. replace (e1 - e2 - (e1 - e2 - 24)) with 24 by lia.
  rewrite Z.shiftl_mul_pow2 by lia.
  set (m' := Zpos m1 * 2 ^ 24).
  pose proof (Z_div_mod m' (Zpos m2) ltac:(lia)) as DM.
  destruct (Z.div_eucl m' (Zpos m2)) as [q r]. destruct DM as [DM Br].
  assert (Hq : 2 ^ 23 <= q < 2 ^ 25) by (unfold m' in DM; nia).
  pose proof (Zdigits2_bounds q ltac:(lia)) as Bq.
  assert (Dq : 24 <= Zdigits2 q <= 25).
  { split.
    - destruct (Z_lt_le_dec (Zdigits2 q) 24) as [L | G]; [ | exact G ].
      assert (2 ^ Zdigits2 q <= 2 ^ 23) by (apply Z.pow_le_mono_r; lia). lia.
    - destruct (Z_lt_le_dec 25 (Zdigits2 q)) as [L | G]; [ | exact G ].
      assert (2 ^ 25 <= 2 ^ (Zdigits2 q - 1)) by (apply Z.pow_le_mono_r; lia). lia. }
  set (X := (inject_Z m' / inject_Z (Zpos m2))%Q).
  assert (P2 : (0 < inject_Z (Zpos m2))%Q)
    by (change 0%Q with (inject_Z 0); rewrite <- Zlt_Qlt; lia).
  assert (HX : (inject_Z q <= X <= inject_Z q + 1)%Q).
  { unfold X. split.
    - apply Qle_shift_div_l; [ exact P2 | ].
      rewrite <- inject_Z_mult, <- Zle_Qle. nia.
    - apply Qle_shift_div_r; [ exact P2 | ].
      change (inject_Z q + 1)%Q with (inject_Z q + inject_Z 1)%Q.
      rewrite <- inject_Z_plus, <- inject_Z_mult, <- Zle_Qle. nia. }
  destruct (binary_round_aux_near 24 128 ltac:(lia) (xorb false false) q
              (e1 - e2 - 24) (new_location (Zpos m2) r) X)
    as (m & e & Eq & Cm & Ce & N); try lia; try exact HX.
  { unfold emin. lia. }
  exists m, e. split; [ exact Eq | split; [ exact Cm | split; [ lia | ] ] ].
  apply (near_mul_r g24 _ _ (Qval m2 e2)) in N;
    [ | apply Qlt_le_weak, Qval_pos ].
  eapply near_eq; [ reflexivity | | exact N ].
  unfold X, Qval, m'. rewrite inject_Z_mult, inject_Z_pow2 by lia.
  replace e1 with (24 + (e1 - e2 - 24) + e2) at 2 by lia.
  rewrite !Qpow2_add. field.
  intros Z0. rewrite Z0 in P2. apply (Qlt_irrefl 0). exact P2.
Qed.

(** The binary64 multiplication of two normalised positive numbers. *)
Lemma SFmul_near (ma mb : positive) (ea eb : Z) :
  2 ^ 52 <= Zpos ma < 2 ^ 53 -> 2 ^ 52 <= Zpos mb < 2 ^ 53 ->
  -400 <= ea <= 400 -> -400 <= eb <= 400 ->
  exists m e,
    SFmul 53 1024 (S754_finite false ma ea) (S754_finite false mb eb)
    = S754_finite false m e /\
    2 ^ 52 <= Zpos m < 2 ^ 53 /\
    ea + eb + 52 <= e <= ea + eb + 54 /\
    near g24 (Qval m e) (Qval ma ea * Qval mb eb).
Proof.
  intros Ca Cb Ba Bb. unfold SFmul.
  set (M := Zpos (ma * mb)).
  assert (EM : M = Zpos ma * Zpos mb) by reflexivity.
  assert (HM : 2 ^ 104 <= M < 2 ^ 106) by (rewrite EM; nia).
  pose proof (Zdigits2_bounds M ltac:(lia)) as BM.
  assert (DM : 105 <= Zdigits2 M <= 106).
  { split.
    - destruct (Z_lt_le_dec (Zdigits2 M) 105) as [L | G]; [ | exact G ].
      assert (2 ^ Zdigits2 M <= 2 ^ 104) by (apply Z.pow_le_mono_r; lia). lia.
    - destruct (Z_lt_le_dec 106 (Zdigits2 M)) as [L | G]; [ | exact G ].
      assert (2 ^ 106 <= 2 ^ (Zdigits2 M - 1)) by (apply Z.pow_le_mono_r; lia). lia. }
  destruct (binary_round_aux_near 53 1024 ltac:(lia) (xorb false false) M
              (ea + eb) loc_Exact (inject_Z M))
    as (m & e & Eq & Cm & Ce & N); try lia; try (split; lra).
  { unfold emin. lia. }
  exists m, e. split; [ exact Eq | split; [ exact Cm | split; [ lia | ] ] ].
  eapply near_eq; [ reflexivity | | exact N ].
  unfold Qval. rewrite EM, inject_Z_mult, Qpow2_add. ring.
Qed.


(** *** The conversions and operations of the sketch *)

(** The conversion of a positive [unsigned long] or [int] to [float]. *)
Lemma float_of_int_near (n : Z) :
  1 <= n < 2 ^ 32 ->
  exists m e,
    float_of_int n = S754_finite false m e /\
    2 ^ 23 <= Zpos m < 2 ^ 24 /\ -23 <= e <= 9 /\
    near g24 (Qval m e) (inject_Z n).
Proof.
  intros B. destruct n as [| pn | pn]; try lia.
  unfold float_of_int, binary_normalize.
  pose proof (Zdigits2_bounds (Zpos pn) ltac:(lia)) as Bd.
  assert (Dn : 1 <= Zdigits2 (Zpos pn) <= 32).
  { split; [ simpl; lia | ].
    destruct (Z_lt_le_dec 32 (Zdigits2 (Zpos pn))) as [L | G]; [ | exact G ].
    assert (2 ^ 32 <= 2 ^ (Zdigits2 (Zpos pn) - 1)) by (apply Z.pow_le_mono_r; lia).
    lia. }
  destruct (binary_round_near 24 128 ltac:(lia) false pn 0)
    as (m & e & Eq & Cm & Ce & N); try (unfold emin; lia).
  exists m, e. split; [ exact Eq | split; [ exact Cm | split; [ lia | ] ] ].
  eapply near_eq; [ reflexivity | | exact N ].
  unfold Qval. change (2 ^ 0)%Q with 1%Q. ring.
Qed.


Lemma near_weaken (c c' a b : Q) :
  (c <= c')%Q -> (0 <= a)%Q -> (0 <= b)%Q -> near c a b -> near c' a b.
Proof.
  unfold near. intros H Pa Pb [A B]. split.
  - apply Qle_trans with (b * c)%Q; [ exact A | ].
    rewrite (Qmult_comm b c), (Qmult_comm b c').
    apply Qmult_le_compat_r; assumption.
  - apply Qle_trans with (a * c)%Q; [ exact B | ].
    rewrite (Qmult_comm a c), (Qmult_comm a c').
    apply Qmult_le_compat_r; assumption.
Qed.

(** The percentage of a positive elapsed time: a positive finite [float]
    within a factor [1 + 2^-20] of the exact quotient. *)
Lemma progress_percent_near (n d : Z) :
  1 <= n < 2 ^ 32 -> 1 <= d < 2 ^ 32 ->
  exists m e,
    progress_percent n d = S754_finite false m e /\
    -90 <= e <= 30 /\
    near (1048577 # 1048576) (Qval m e * inject_Z d) (100 * inject_Z n).
Proof.
  intros Bn Bd.
  destruct (float_of_int_near n Bn) as (m1 & e1 & E1 & C1 & R1 & N1).
  destruct (float_of_int_near d Bd) as (m2 & e2 & E2 & C2 & R2 & N2).
  destruct (SFdiv_near m1 m2 e1 e2 C1 C2 ltac:(lia) ltac:(lia))
    as (mq & eq & Eq & Cq & Rq & Nq).
  pose proof (canonical_digits 24 mq ltac:(lia) Cq) as Dq.
  destruct (binary_round_near 53 1024 ltac:(lia) false mq eq)
    as (mD & eD & ED & CD & RD & ND); rewrite ?Dq; try (unfold emin; lia).
  rewrite Dq in RD.
  assert (E100 : double_100 = S754_finite false 7036874417766400 (-46))
    by (vm_compute; reflexivity).
  destruct (SFmul_near mD 7036874417766400 eD (-46) CD ltac:(lia) ltac:(lia) ltac:(lia))
    as (mP & eP & EP & CP & RP & NP).
  pose proof (canonical_digits 53 mP ltac:(lia) CP) as DP.
  destruct (binary_round_near 24 128 ltac:(lia) false mP eP)
    as (m & e & Ef & Cf & Rf & Nf); rewrite ?DP; try (unfold emin; lia).
  rewrite DP in Rf.
  exists m, e. split; [ | split; [ lia | ] ].
  - unfold progress_percent. rewrite E1, E2, Eq. cbn [double_of_float].
    rewrite ED, E100, EP. cbn [float_of_double]. exact Ef.
  - (* the chain of relative errors *)
    assert (P24 : (0 <= g24)%Q) by (unfold g24; lra).
    assert (P3 : (0 <= g24 * g24 * g24)%Q) by (unfold g24; lra).
    assert (P3' : (0 <= g24 * (g24 * g24))%Q) by (unfold g24; lra).
    assert (Pd : (0 <= inject_Z d)%Q)
      by (change 0%Q with (inject_Z 0); rewrite <- Zle_Qle; lia).
    assert (V100 : (Qval 7036874417766400 (-46) == 100)%Q)
      by (unfold Qval; vm_compute; reflexivity).
    assert (Q1 : near (g24 * g24) (Qval mq eq * inject_Z d) (Qval m1 e1)).
    { apply near_trans with (b := (Qval mq eq * Qval m2 e2)%Q);
        [ exact P24 | exact P24 | | exact Nq ].
      apply near_eq with (a := (inject_Z d * Qval mq eq)%Q)
                         (b := (Qval m2 e2 * Qval mq eq)%Q);
        [ ring | ring | ].
      apply near_mul_r; [ apply Qlt_le_weak, Qval_pos | ].
      apply near_sym. exact N2. }
    assert (Q2 : near (g24 * g24 * g24) (Qval mq eq * inject_Z d) (inject_Z n)).
    { apply near_trans with (b := Qval m1 e1);
        [ | exact P24 | exact Q1 | exact N1 ].
      apply Qmult_le_0_compat; exact P24. }
    assert (Q3 : near (g24 * g24) (Qval mP eP) (Qval mq eq * 100)).
    { apply near_trans with (b := (Qval mD eD * Qval 7036874417766400 (-46))%Q);
        [ exact P24 | exact P24 | exact NP | ].
      apply near_eq with (a := (Qval mD eD * 100)%Q) (b := (Qval mq eq * 100)%Q);
        [ | reflexivity | ].
      - apply Qmult_comp; [ reflexivity | symmetry; exact V100 ].
      - apply near_mul_r; [ lra | exact ND ]. }
    assert (Q4 : near (g24 * (g24 * g24)) (Qval m e) (Qval mq eq * 100)).
    { apply near_trans with (b := Qval mP eP);
        [ exact P24 | | exact Nf | exact Q3 ].
      apply Qmult_le_0_compat; exact P24. }
    assert (Q5 : near G6 (Qval m e * inject_Z d) (100 * inject_Z n)).
    { unfold G6.
      apply near_trans with (b := (Qval mq eq * 100 * inject_Z d)%Q);
        [ exact P3' | exact P3 | | ].
      - apply near_mul_r; [ exact Pd | exact Q4 ].
      - apply near_eq with (a := (Qval mq eq * inject_Z d * 100)%Q)
                           (b := (inject_Z n * 100)%Q);
          [ ring | ring | ].
        apply near_mul_r; [ lra | exact Q2 ]. }
    apply near_weaken with (c := G6); [ | | | exact Q5 ].
    + unfold G6, g24. vm_compute. discriminate.
    + apply Qmult_le_0_compat; [ apply Qlt_le_weak, Qval_pos | exact Pd ].
    + apply Qmult_le_0_compat; [ lra | ].
      change 0%Q with (inject_Z 0). rewrite <- Zle_Qle. lia.
Qed.

(** *** The integer sent to the progress bar *)

(** Truncation drops less than one. *)
Lemma truncate_bounds (m : positive) (e : Z) :
  (inject_Z (truncate false m e) <= Qval m e)%Q /\
  (Qval m e < inject_Z (truncate false m e) + 1)%Q /\
  0 <= truncate false m e.
Proof.
  unfold truncate, Qval. cbn [cond_Zopp].
  destruct e as [| p | p].
  - change (2 ^ 0)%Q with 1%Q. split; [ | split ]; [ lra | lra | lia ].
  - rewrite inject_Z_mult, inject_Z_pow2 by lia.
    split; [ | split ]; [ lra | lra | ].
    apply Z.mul_nonneg_nonneg; [ lia | apply Z.pow_nonneg; lia ].
  - assert (P : 0 < 2 ^ Zpos p) by (apply Z.pow_pos_nonneg; lia).
    pose proof (Z.div_mod (Zpos m) (2 ^ Zpos p) ltac:(lia)) as DM.
    pose proof (Z.mod_pos_bound (Zpos m) (2 ^ Zpos p) P) as MB.
    set (z := Zpos m / 2 ^ Zpos p) in *.
    assert (Z0 : 0 <= z) by (apply Z.div_pos; lia).
    assert (L : z * 2 ^ Zpos p <= Zpos m) by lia.
    assert (U : Zpos m < (z + 1) * 2 ^ Zpos p) by lia.
    rewrite Zle_Qle in L. rewrite Zlt_Qlt in U.
    rewrite inject_Z_mult, inject_Z_pow2 in L by lia.
    rewrite inject_Z_mult, inject_Z_plus, inject_Z_pow2 in U by lia.
    change (inject_Z 1) with 1%Q in U.
    assert (E : (2 ^ Zneg p * 2 ^ Zpos p == 1)%Q).
    { rewrite <- Qpow2_add. replace (Zneg p + Zpos p) with 0 by lia. reflexivity. }
    pose proof (Qpow2_pos (Zpos p)) as PP.
    pose proof (Qpow2_pos (Zneg p)) as PN.
    set (a := (2 ^ Zpos p)%Q) in *. set (b := (2 ^ Zneg p)%Q) in *.
    set (M := inject_Z (Zpos m)) in *. set (zq := inject_Z z) in *.
    split; [ | split ]; [ | | exact Z0 ].
    + assert (X : (zq * a * b <= M * b)%Q) by (apply Qmult_le_compat_r; lra).
      assert (Y : (zq * a * b == zq)%Q).
      { rewrite <- Qmult_assoc, (Qmult_comm a b), E. ring. }
      rewrite Y in X. exact X.
    + assert (X : (M * b < (zq + 1) * a * b)%Q).
      { apply Qmult_lt_compat_r; lra. }
      assert (Y : ((zq + 1) * a * b == zq + 1)%Q).
      { rewrite <- Qmult_assoc, (Qmult_comm a b), E. ring. }
      rewrite Y in X. exact X.
Qed.

(** No elapsed time is exactly 0 %. *)
Lemma progress_percent_zero (d : Z) :
  1 <= d < 2 ^ 32 -> progress_percent 0 d = S754_zero false.
Proof.
  intros D.
  destruct (float_of_int_near d D) as (m & e & F & _).
  unfold progress_percent. rewrite F. reflexivity.
Qed.

(** The converted value is an [int]. *)
Lemma int_of_float_range (x : spec_float) :
  - 2 ^ 31 <= int_of_float x < 2 ^ 31.
Proof.
  unfold int_of_float, INT_MIN, INT_MAX.
  destruct x as [ | | | s m e]; try lia.
  cbv zeta.
  destruct (Z.leb_spec (- 2 ^ 31) (truncate s m e));
    destruct (Z.leb_spec (truncate s m e) (2 ^ 31 - 1)); cbn [andb]; lia.
Qed.

(** The integer sent to the progress bar is within one of the exact
    percentage rounded down, for an elapsed time of up to 1000 windows
    (where the conversion to [int] is defined). *)
Lemma progress_shown_accuracy (n d : Z) :
  0 <= n < 2 ^ 32 -> 1 <= d < 2 ^ 32 -> n <= 1000 * d ->
  100 * n / d - 1 <= int_of_float (progress_percent n d) <= 100 * n / d + 1.
Proof.
  intros N D B.
  destruct (Z.eq_dec n 0) as [-> | NZ].
  { rewrite progress_percent_zero by exact D.
    unfold int_of_float. rewrite Z.mul_0_r, Z.div_0_l by lia. lia. }
  destruct (progress_percent_near n d ltac:(lia) D) as (m & e & P & _ & (Q1 & Q2)).
  rewrite P.
  destruct (truncate_bounds m e) as (TL & TU & T0).
  set (z := truncate false m e) in *.
  pose proof (Z.div_mod (100 * n) d ltac:(lia)) as DM.
  pose proof (Z.mod_pos_bound (100 * n) d ltac:(lia)) as MB.
  set (f := 100 * n / d) in *.
  assert (F0 : 0 <= f) by (apply Z.div_pos; lia).
  assert (DQ : (0 < inject_Z d)%Q).
  { change 0%Q with (inject_Z 0). rewrite <- Zlt_Qlt. lia. }
  (* upper *)
  assert (U : 1048576 * (z * d) <= 1048577 * (100 * n)).
  { rewrite Zle_Qle. rewrite !inject_Z_mult.
    change (inject_Z 1048576) with (1048576 # 1)%Q.
    change (inject_Z 1048577) with (1048577 # 1)%Q.
    change (inject_Z 100) with (100 # 1)%Q.
    assert (X : (inject_Z z * inject_Z d <= Qval m e * inject_Z d)%Q).
    { apply Qmult_le_compat_r; lra. }
    lra. }
  assert (L : 1048576 * (100 * n) < 1048577 * ((z + 1) * d)).
  { rewrite Zlt_Qlt. rewrite !inject_Z_mult, inject_Z_plus.
    change (inject_Z 1048576) with (1048576 # 1)%Q.
    change (inject_Z 1048577) with (1048577 # 1)%Q.
    change (inject_Z 100) with (100 # 1)%Q.
    change (inject_Z 1) with 1%Q.
    assert (X : (Qval m e * inject_Z d < (inject_Z z + 1) * inject_Z d)%Q).
    { apply Qmult_lt_compat_r; lra. }
    lra. }
  assert (ZU : z <= f + 1) by nia.
  assert (ZL : f - 1 <= z) by nia.
  assert (FB : f <= 100000) by nia.
  unfold int_of_float. fold z. cbv zeta.
  unfold INT_MIN, INT_MAX.
  destruct (Z.leb_spec (- 2 ^ 31) z); [ | lia ].
  destruct (Z.leb_spec z (2 ^ 31 - 1)); [ | lia ].
  cbn [andb]. lia.
Qed.

(** The three facts about the percentage used below: no elapsed time gives
    exactly zero; otherwise the stored [float] is within a factor
    [1 + 2^-20] of the exact quotient; and, up to 1000 times the window,
    the integer sent to the progress bar is within one of the exact
    percentage rounded down. *)
Lemma progress_percent_accuracy (n d : Z) :
  0 <= n < 2 ^ 32 -> 1 <= d < 2 ^ 32 ->
  (n = 0 -> progress_percent n d = S754_zero false) /\
  (1 <= n ->
   near (1048577 # 1048576)
        (float_value (progress_percent n d) * inject_Z d) (100 * inject_Z n)) /\
  (n <= 1000 * d ->
   100 * n / d - 1 <= int_of_float (progress_percent n d) <= 100 * n / d + 1).
Proof.
  intros N D. split; [ | split ].
  - intros ->. apply progress_percent_zero. exact D.
  - intros N1.
    destruct (progress_percent_near n d ltac:(lia) D) as (m & e & P & _ & Q).
    rewrite P. exact Q.
  - intros B. apply progress_shown_accuracy; assumption.
Qed.

(** * The properties of the specification *)

(** ** Schedule edits *)

(** C1 (defect in the code).  A custom edit that leaves
    [stop < start] is meant to be normalised by swapping the bounds, but
    the swap in [BLYNK_WRITE(SCHEDULE)] assigns [state.start] twice and never
    assigns [state.stop]: editing the default 00:00-06:00 schedule to
    start 08:20:00, stop 02:00:00 stores start = 30000 and stop = 7200, an
    inverted window. *)
Theorem C1_schedule_edit_leaves_window_inverted :
  let s' := exec (BLYNK_WRITE_SCHEDULE (mkTimeInput true 30000 true 7200)) init in
  start s' = 30000 /\ stop s' = 7200 /\ stop s' < start s'.
Proof. vm_compute. repeat split; reflexivity. Qed.

(** C9.  A schedule edit with the sentinel -1 on one bound and a real value
    on the other stores the real value in its bound and leaves the other
    bound as it was; the command is processed in full (the menu selection
    becomes 4, "custom"), never rejected. *)
Theorem C9_sentinel_bound_unchanged :
  forall (s : State) (schedule : TimeInput),
    let s' := exec (BLYNK_WRITE_SCHEDULE schedule) s in
    (hasStartTime schedule = true -> param0 schedule <> -1 ->
     param1 schedule = -1 ->
     start s' = param0 schedule /\ stop s' = stop s /\ menuSelection s' = 4) /\
    (hasStopTime schedule = true -> param1 schedule <> -1 ->
     param0 schedule = -1 ->
     start s' = start s /\ stop s' = param1 schedule /\ menuSelection s' = 4).
Proof.
  intros s schedule s'. subst s'. rewrite BLYNK_WRITE_SCHEDULE_exec.
  destruct schedule as [hs p0 he p1]. simpl. split.
  - intros -> N ->. apply Z.eqb_neq in N. rewrite N.
    rewrite andb_false_r. destruct_state s. repeat split.
  - intros -> N ->. apply Z.eqb_neq in N. rewrite N.
    rewrite andb_false_r. destruct_state s. repeat split.
Qed.

Lemma C9_witness :
  (let s' := exec (BLYNK_WRITE_SCHEDULE (mkTimeInput true 7200 true (-1))) init in
   start s' = 7200 /\ stop s' = 21600 /\ menuSelection s' = 4) /\
  (let s' := exec (BLYNK_WRITE_SCHEDULE (mkTimeInput true (-1) true 3600)) init in
   start s' = 0 /\ stop s' = 3600 /\ menuSelection s' = 4).
Proof.
  split.
  - apply (proj1 (C9_sentinel_bound_unchanged init (mkTimeInput true 7200 true (-1)))).
    + reflexivity.
    + simpl. lia.
    + reflexivity.
  - apply (proj2 (C9_sentinel_bound_unchanged init (mkTimeInput true (-1) true 3600))).
    + reflexivity.
    + simpl. lia.
    + reflexivity.
Defined.

(** ** The decision of the state machine *)

(** C2.  A callback that runs with [disable] set ends in [S_DISABLED] with
    the power-enable output off, whatever the time of day, the schedule and
    the [manual] flag are. *)
Theorem C2_disable_overrides :
  forall (clk : Clock) (s : State),
    disable s = true ->
    let s' := exec (powerManagement clk) s in
    chargeState s' = S_DISABLED /\ power_enable s' = false.
Proof.
  intros clk s D s'. subst s'. unfold power_enable.
  rewrite powerManagement_chargeState, powerManagement_charging_flag.
  unfold decide. rewrite D. split; reflexivity.
Qed.

Lemma C2_witness :
  let s' := exec (powerManagement (at_time 7200))
              (set_manual true (set_disable true init)) in
  chargeState s' = S_DISABLED /\ power_enable s' = false.
Proof.
  apply (C2_disable_overrides (at_time 7200)
           (set_manual true (set_disable true init))).
  reflexivity.
Defined.

(** C3.  A callback that runs with [disable] clear: inside the window
    [start <= time of day < stop] it ends in [S_CHARGING] with power on and
    [manual] forced to false; outside the window it ends in [S_MANUAL] with
    power on when [manual] is set, and in [S_QUIESCENT] with power off when
    it is not. *)
Theorem C3_decision_when_enabled :
  forall (clk : Clock) (s : State),
    disable s = false ->
    let s' := exec (powerManagement clk) s in
    (start s <= currentTimeinSecs clk < stop s ->
     chargeState s' = S_CHARGING /\ power_enable s' = true /\ manual s' = false) /\
    (~ (start s <= currentTimeinSecs clk < stop s) -> manual s = true ->
     chargeState s' = S_MANUAL /\ power_enable s' = true) /\
    (~ (start s <= currentTimeinSecs clk < stop s) -> manual s = false ->
     chargeState s' = S_QUIESCENT /\ power_enable s' = false).
Proof.
  intros clk s D s'. subst s'. unfold power_enable.
  rewrite powerManagement_chargeState, powerManagement_charging_flag.
  unfold decide. rewrite D. split; [ | split ].
  - intros W. apply in_window_true_iff in W. rewrite W.
    split; [ reflexivity | split; [ reflexivity | ] ].
    rewrite (powerManagement_charging clk s D W).
    unfold begin_session. destruct_state s. break_if; reflexivity.
  - intros W M. apply in_window_false_iff in W. rewrite W, M.
    split; reflexivity.
  - intros W M. apply in_window_false_iff in W. rewrite W, M.
    split; reflexivity.
Qed.

Lemma C3_witness :
  (let s' := exec (powerManagement (at_time 7200)) (set_manual true init) in
   chargeState s' = S_CHARGING /\ power_enable s' = true /\ manual s' = false) /\
  (let s' := exec (powerManagement (at_time 25200)) (set_manual true init) in
   chargeState s' = S_MANUAL /\ power_enable s' = true) /\
  (let s' := exec (powerManagement (at_time 25200)) init in
   chargeState s' = S_QUIESCENT /\ power_enable s' = false).
Proof.
  split; [ | split ].
  - apply (proj1 (C3_decision_when_enabled (at_time 7200) (set_manual true init)
                    eq_refl)).
    vm_compute. split; [ discriminate | reflexivity ].
  - apply (proj1 (proj2 (C3_decision_when_enabled (at_time 25200)
                           (set_manual true init) eq_refl))).
    + vm_compute. intros [_ H]. discriminate H.
    + reflexivity.
  - apply (proj2 (proj2 (C3_decision_when_enabled (at_time 25200) init eq_refl))).
    + vm_compute. intros [_ H]. discriminate H.
    + reflexivity.
Defined.

(** C10.  A callback that runs with [disable] set clears [manual]; when
    [disable] is then switched off from the dashboard and the time of day is
    outside the window, the next callback ends in [S_QUIESCENT] with power
    off, even if a manual session was pending before. *)
Theorem C10_disable_clears_manual :
  forall (s : State) (clk1 clk2 : Clock) (millis_check millis_stamp : Z),
    disable s = true ->
    BLYNK_DEBOUNCE_TIME < to_uint32 (millis_check - lastPress_disable s) ->
    ~ (start s <= currentTimeinSecs clk2 < stop s) ->
    let s1 := exec (powerManagement clk1) s in
    let s2 := exec (BLYNK_WRITE_FORCE_DISABLE millis_check millis_stamp) s1 in
    let s3 := exec (powerManagement clk2) s2 in
    manual s1 = false /\ disable s2 = false /\
    chargeState s3 = S_QUIESCENT /\ power_enable s3 = false.
Proof.
  intros s clk1 clk2 mc ms D P W s1 s2 s3.
  apply in_window_false_iff in W. apply Z.ltb_lt in P.
  assert (E2 : s2 = set_lastPress_disable (to_int32 ms) (set_disable false s1)).
  { subst s2 s1. rewrite (powerManagement_disabled clk1 s D).
    unfold in_window in W. destruct_state s.
    unfold BLYNK_WRITE_FORCE_DISABLE. unfold_cmd.
    destruct (ChargeState_eqb cs S_CHARGING); simpl; rewrite P; reflexivity. }
  assert (M1 : manual s1 = false).
  { subst s1. rewrite (powerManagement_disabled clk1 s D).
    destruct_state s. break_if; reflexivity. }
  assert (W2 : in_window s2 clk2 = false).
  { rewrite E2. unfold in_window in *.
    destruct (powerManagement_frame clk1 s) as (F1 & F2 & _).
    fold s1 in F1, F2. rewrite <- F1, <- F2 in W.
    destruct s1; simpl in *. exact W. }
  assert (M2 : manual s2 = false).
  { rewrite E2. destruct s1; simpl in *. exact M1. }
  assert (D2 : disable s2 = false).
  { rewrite E2. destruct s1; reflexivity. }
  subst s3. unfold power_enable.
  rewrite powerManagement_chargeState, powerManagement_charging_flag.
  unfold decide. rewrite D2, W2, M2. repeat split; assumption.
Qed.

Lemma C10_witness :
  let s := set_manual true (set_disable true init) in
  let s1 := exec (powerManagement (at_time 30000)) s in
  let s2 := exec (BLYNK_WRITE_FORCE_DISABLE 5000 5000) s1 in
  let s3 := exec (powerManagement (at_time 30005)) s2 in
  manual s1 = false /\ disable s2 = false /\
  chargeState s3 = S_QUIESCENT /\ power_enable s3 = false.
Proof.
  apply (C10_disable_clears_manual (set_manual true (set_disable true init))
           (at_time 30000) (at_time 30005) 5000 5000).
  - reflexivity.
  - vm_compute. reflexivity.
  - vm_compute. intros [_ H]. discriminate H.
Defined.

(** ** Session start *)

Lemma manual_session_running_reachable : reachable manual_session_running.
Proof. unfold manual_session_running. do 2 apply reachable_step. apply reachable_init. Qed.

(** C5 does not hold as written: when the state before the callback is [S_MANUAL]
    and the callback enters [S_CHARGING], the session is not restarted.
    The manual session above began at 25200; the callback at the following
    midnight (86400) enters the window and keeps [runtimeStart = 25200]. *)
Lemma C5_counterexample :
  ~ (forall (s : State) (clk : Clock),
        reachable s ->
        chargeState s = S_MANUAL ->
        chargeState (exec (powerManagement clk) s) = S_CHARGING ->
        runtimeStart (exec (powerManagement clk) s) = t_session clk).
Proof.
  intros H.
  specialize (H manual_session_running (at_time 86400)
                manual_session_running_reachable eq_refl eq_refl).
  vm_compute in H. discriminate H.
Qed.

(** C5 (amended).  In a reachable state, a callback that ends in a counted
    state ([S_CHARGING] or [S_MANUAL]) sets [runtimeStart] to the current
    time when the state before it was not counted, and keeps the running
    session's [runtimeStart] when it was counted already, which includes
    entering [S_CHARGING] from [S_MANUAL]. *)
Theorem C5_session_start :
  forall (s : State) (clk : Clock),
    reachable s ->
    let s' := exec (powerManagement clk) s in
    counted (chargeState s') = true ->
    (counted (chargeState s) = false -> runtimeStart s' = t_session clk) /\
    (counted (chargeState s) = true -> runtimeStart s' = runtimeStart s).
Proof.
  intros s clk R s' C. subst s'.
  destruct (reachable_consistent s R) as [_ CE]. clear R. revert C.
  pm_cases s clk; unfold begin_session; destruct_state s; destruct cs; simpl;
    intros C; try discriminate C;
    split; intros E; try discriminate E; reflexivity.
Qed.

Lemma C5_witness :
  runtimeStart (exec (powerManagement (at_time 7200)) init) = 7200 /\
  runtimeStart (exec (powerManagement (at_time 86400)) manual_session_running)
  = runtimeStart manual_session_running.
Proof.
  split.
  - apply (proj1 (C5_session_start init (at_time 7200) reachable_init eq_refl)).
    reflexivity.
  - apply (proj2 (C5_session_start manual_session_running (at_time 86400)
                    manual_session_running_reachable eq_refl)).
    reflexivity.
Defined.

(** ** Idempotence and notifications *)

Lemma powerManagement_manual_flag (clk : Clock) (s : State) :
  manual (exec (powerManagement clk) s) =
  if disable s then false else if in_window s clk then false else manual s.
Proof.
  pm_cases s clk; unfold begin_session; destruct_state s; break_if; reflexivity.
Qed.

Lemma decide_idempotent (clk1 clk2 : Clock) (s : State) :
  in_window s clk2 = in_window s clk1 ->
  decide (exec (powerManagement clk1) s) clk2 = decide s clk1.
Proof.
  intros H. unfold decide.
  rewrite powerManagement_in_window, powerManagement_manual_flag.
  destruct (powerManagement_frame clk1 s) as (_ & _ & F & _).
  rewrite F, H.
  destruct (disable s), (in_window s clk1), (manual s); reflexivity.
Qed.

(** C7.  Running the callback again with the time of day classified the
    same way (and nothing else in between) yields the same state and
    power-enable output and makes no call on the status LED; and in a
    reachable state the LED is called exactly with the announcement of the
    new state when the state changes, and not at all when it does not. *)
Theorem C7_reevaluation_idempotent :
  forall (s : State) (clk1 clk2 : Clock),
    in_window s clk2 = in_window s clk1 ->
    let s1 := exec (powerManagement clk1) s in
    let s2 := exec (powerManagement clk2) s1 in
    (chargeState s2 = chargeState s1 /\
     power_enable s2 = power_enable s1 /\
     notifications (trace (powerManagement clk2) s1) = []) /\
    (reachable s ->
     notifications (trace (powerManagement clk1) s) =
     if ChargeState_eqb (chargeState s1) (chargeState s) then []
     else announce (chargeState s1)).
Proof.
  intros s clk1 clk2 H s1 s2. subst s2 s1. unfold power_enable. split.
  - rewrite powerManagement_notifications.
    rewrite (powerManagement_chargeState clk2), (powerManagement_charging_flag clk2).
    rewrite (decide_idempotent clk1 clk2 s H).
    destruct (powerManagement_bookkeeping clk1 s) as [B _].
    rewrite B, powerManagement_chargeState, powerManagement_charging_flag.
    rewrite ChargeState_eqb_refl. repeat split.
  - intros R. destruct (reachable_consistent s R) as [L _].
    rewrite powerManagement_notifications, powerManagement_chargeState.
    rewrite L. reflexivity.
Qed.

Lemma C7_witness :
  let s1 := exec (powerManagement (at_time 7200)) init in
  let s2 := exec (powerManagement (at_time 7205)) s1 in
  (chargeState s2 = chargeState s1 /\
   power_enable s2 = power_enable s1 /\
   notifications (trace (powerManagement (at_time 7205)) s1) = []) /\
  notifications (trace (powerManagement (at_time 7200)) init) = announce S_CHARGING.
Proof.
  split.
  - apply (proj1 (C7_reevaluation_idempotent init (at_time 7200) (at_time 7205)
                    eq_refl)).
  - apply (proj2 (C7_reevaluation_idempotent init (at_time 7200) (at_time 7205)
                    eq_refl) reachable_init).
Defined.

(** ** Progress reporting *)

Lemma all_upto_spec (k : nat) (p : Z -> bool) :
  all_upto k p = true -> forall n, 0 <= n <= Z.of_nat k -> p n = true.
Proof.
  induction k as [| k IH]; intros A n B.
  - simpl in *. replace n with 0 by lia. exact A.
  - change (all_upto (S k) p) with (p (Z.of_nat (S k)) && all_upto k p) in A.
    apply andb_true_iff in A. destruct A as [A1 A2].
    destruct (Z.eq_dec n (Z.of_nat (S k))) as [-> | N].
    + exact A1.
    + apply IH; [ exact A2 | lia ].
Qed.

(** Over the default six-hour window, at every whole minute of elapsed
    time, the [float] arithmetic never over-reports and under-reports by at
    most one: the integer on the progress bar is the exact percentage
    rounded down, or one less. *)
Lemma progress_default_window_accuracy (minutes : Z) :
  0 <= minutes <= 360 ->
  let shown := int_of_float (progress_percent (60 * minutes) 21600) in
  shown <= 100 * (60 * minutes) / 21600 <= shown + 1.
Proof.
  intros B shown.
  assert (A : within_one_percent 21600 (60 * minutes) = true).
  { apply (all_upto_spec (Z.to_nat 360)
             (fun m => within_one_percent 21600 (60 * m))).
    - vm_compute. reflexivity.
    - rewrite Z2Nat.id by lia. exact B. }
  unfold within_one_percent in A. fold shown in A.
  apply andb_true_iff in A. destruct A as [A1 A2].
  apply Z.leb_le in A1. apply Z.leb_le in A2. split; assumption.
Qed.

(** The one-less case does occur: 12744 s of 21600 s is exactly 59 %, and
    the progress bar shows 58. *)
Lemma progress_rounding_example :
  100 * 12744 / 21600 = 59 /\ int_of_float (progress_percent 12744 21600) = 58.
Proof. split; vm_compute; reflexivity. Qed.

(** The percentage stored by a callback inside the window, in terms of the
    state the callback leaves. *)
Lemma powerManagement_charging_progress (clk : Clock) (s : State) :
  disable s = false -> in_window s clk = true ->
  let s' := exec (powerManagement clk) s in
  chargeProgress s' =
  progress_percent (to_uint32 (t_report clk - runtimeStart s' + savedRuntime s'))
    (to_int32 (stop s - start s)).
Proof.
  intros D W s'. subst s'.
  rewrite (powerManagement_charging clk s D W).
  unfold begin_session. destruct_state s. break_if; reflexivity.
Qed.

(** C6.  A callback that ends in [S_CHARGING] stores in [chargeProgress]
    and reports on the progress bar
    (now - runtimeStart + savedRuntime) / (stop - start) * 100, evaluated in
    [float] arithmetic.  When stop - start is an [int], the stored value is
    exactly zero for no elapsed time and otherwise within a factor
    [1 + 2^-20] of the exact quotient, and the reported integer is within
    one of the exact percentage rounded down; with start = 0, stop = 21600,
    nothing saved and 7200 seconds into the session the reported integer
    is 33. *)
Theorem C6_progress_percentage :
  forall (s : State) (clk : Clock),
    disable s = false ->
    start s <= currentTimeinSecs clk < stop s ->
    let s' := exec (powerManagement clk) s in
    let elapsed := to_uint32 (t_report clk - runtimeStart s' + savedRuntime s') in
    let scheduledSeconds := to_int32 (stop s' - start s') in
    chargeState s' = S_CHARGING /\
    chargeProgress s' = progress_percent elapsed scheduledSeconds /\
    (exists tr,
        trace (powerManagement clk) s =
        tr ++ [virtualWrite PROGRESS_BAR [VInt (int_of_float (chargeProgress s'))]]) /\
    INT_MIN <= int_of_float (chargeProgress s') <= INT_MAX /\
    (stop s - start s < 2 ^ 31 ->
     scheduledSeconds = stop s - start s /\
     (elapsed = 0 -> chargeProgress s' = S754_zero false) /\
     (1 <= elapsed ->
      near (1048577 # 1048576)
           (float_value (chargeProgress s') * inject_Z (stop s - start s))
           (100 * inject_Z elapsed)) /\
     (elapsed <= 1000 * (stop s - start s) ->
      100 * elapsed / (stop s - start s) - 1
      <= int_of_float (chargeProgress s')
      <= 100 * elapsed / (stop s - start s) + 1)) /\
    (start s = 0 -> stop s = 21600 -> savedRuntime s' = 0 ->
     t_report clk - runtimeStart s' = 7200 ->
     int_of_float (chargeProgress s') = 33).
Proof.
  intros s clk D W s' elapsed scheduledSeconds.
  pose proof W as W0.
  apply in_window_true_iff in W.
  assert (P : chargeProgress s' = progress_percent elapsed scheduledSeconds).
  { subst elapsed scheduledSeconds s'.
    rewrite (powerManagement_charging clk s D W).
    unfold begin_session. destruct_state s. break_if; reflexivity. }
  destruct (powerManagement_frame clk s) as (F1 & F2 & _).
  fold s' in F1, F2.
  split; [ | split; [ exact P | split; [ | split; [ | split ] ] ] ].
  - subst s'. rewrite powerManagement_chargeState. unfold decide.
    rewrite D, W. reflexivity.
  - apply powerManagement_charging_trace; assumption.
  - pose proof (int_of_float_range (chargeProgress s')).
    unfold INT_MIN, INT_MAX. lia.
  - intros R.
    assert (SS : scheduledSeconds = stop s - start s).
    { subst scheduledSeconds. rewrite F1, F2. apply to_int32_small. lia. }
    pose proof (to_uint32_range
                  (t_report clk - runtimeStart s' + savedRuntime s')) as ER.
    fold elapsed in ER.
    destruct (progress_percent_accuracy elapsed (stop s - start s) ER
                ltac:(lia)) as (A0 & A1 & A2).
    rewrite P, SS.
    split; [ reflexivity | split; [ exact A0 | split; [ exact A1 | exact A2 ] ] ].
  - intros E1 E2 E3 E4. rewrite P. subst elapsed scheduledSeconds.
    rewrite F1, F2, E1, E2, E3, E4.
    vm_compute. reflexivity.
Qed.

Lemma C6_witness :
  let s := exec (powerManagement (at_time 0)) init in
  let shown :=
    int_of_float (chargeProgress (exec (powerManagement (at_time 12744)) s)) in
  100 * 12744 / 21600 - 1 <= shown <= 100 * 12744 / 21600 + 1.
Proof.
  intros s.
  assert (W : start s <= currentTimeinSecs (at_time 12744) < stop s)
    by (vm_compute; split; [ discriminate | reflexivity ]).
  assert (R : stop s - start s < 2 ^ 31) by (vm_compute; reflexivity).
  apply (proj2 (proj2 (proj2 (proj1 (proj2 (proj2 (proj2 (proj2
           (C6_progress_percentage s (at_time 12744) eq_refl W))))) R)))).
  vm_compute. discriminate.
Defined.

(** ** Carry-over of an interrupted scheduled session *)

Lemma BLYNK_WRITE_FORCE_DISABLE_accepts (millis_check millis_stamp : Z) (s : State) :
  BLYNK_DEBOUNCE_TIME < to_uint32 (millis_check - lastPress_disable s) ->
  exec (BLYNK_WRITE_FORCE_DISABLE millis_check millis_stamp) s =
  set_lastPress_disable (to_int32 millis_stamp) (set_disable (negb (disable s)) s).
Proof.
  intros P. apply Z.ltb_lt in P. destruct_state s.
  unfold BLYNK_WRITE_FORCE_DISABLE. unfold_cmd. rewrite P. reflexivity.
Qed.

Lemma last_cons_default {A : Type} (l : list A) (a d : A) :
  last (a :: l) d = last l a.
Proof.
  revert a d. induction l as [| b l IH]; intros a d.
  - reflexivity.
  - change (last (a :: b :: l) d) with (last (b :: l) d).
    rewrite !IH. reflexivity.
Qed.

Lemma powerManagement_disabled_idle (saved0 start0 stop0 press0 : Z)
    (clk : Clock) (s : State) :
  disabled_idle saved0 start0 stop0 press0 s ->
  disabled_idle saved0 start0 stop0 press0 (exec (powerManagement clk) s).
Proof.
  intros [D C CE SV ST SP LP].
  rewrite (powerManagement_disabled clk s D).
  destruct_state s. simpl. constructor; reflexivity.
Qed.

Lemma ticks_disabled_idle (saved0 start0 stop0 press0 : Z)
    (clks : list Clock) (s : State) :
  disabled_idle saved0 start0 stop0 press0 s ->
  disabled_idle saved0 start0 stop0 press0 (ticks clks s).
Proof.
  revert s. induction clks as [| clk rest IH]; intros s I; simpl.
  - exact I.
  - apply IH. apply powerManagement_disabled_idle. exact I.
Qed.

(** While charging, further callbacks inside the window keep the session
    and report progress relative to it. *)
Lemma ticks_charging (clks : list Clock) :
  forall (s : State) (clk0 : Clock),
    disable s = false -> counterEnabled s = true ->
    chargeState s = S_CHARGING ->
    chargeProgress s =
      progress_percent (to_uint32 (t_report clk0 - runtimeStart s + savedRuntime s))
        (to_int32 (stop s - start s)) ->
    Forall (fun clk => in_window s clk = true) clks ->
    chargeState (ticks clks s) = S_CHARGING /\
    chargeProgress (ticks clks s) =
      progress_percent
        (to_uint32 (t_report (last clks clk0) - runtimeStart s + savedRuntime s))
        (to_int32 (stop s - start s)).
Proof.
  induction clks as [| clk rest IH]; intros s clk0 D CE C P W.
  - simpl. split; assumption.
  - rewrite last_cons_default.
    change (ticks (clk :: rest) s) with (ticks rest (exec (powerManagement clk) s)).
    inversion W as [| c l Wc Wrest]; subst.
    pose proof (powerManagement_charging clk s D Wc) as E.
    assert (Wrest' : Forall (fun c => in_window (exec (powerManagement clk) s) c = true) rest).
    { eapply Forall_impl; [ | exact Wrest ].
      intros c Hc. rewrite powerManagement_in_window. exact Hc. }
    revert E Wrest'. generalize (exec (powerManagement clk) s). intros s1 E Wrest'.
    specialize (IH s1 clk).
    unfold begin_session in E. rewrite CE in E.
    destruct_state s. simpl in *.
    apply IH; try reflexivity. exact Wrest'.
Qed.

(** While charging, further callbacks inside the window keep the session's
    start and the time saved before it. *)
Lemma ticks_charging_session (clks : list Clock) :
  forall (s : State),
    disable s = false -> counterEnabled s = true ->
    Forall (fun clk => in_window s clk = true) clks ->
    runtimeStart (ticks clks s) = runtimeStart s /\
    savedRuntime (ticks clks s) = savedRuntime s.
Proof.
  induction clks as [| clk rest IH]; intros s D CE W.
  - simpl. split; reflexivity.
  - change (ticks (clk :: rest) s) with (ticks rest (exec (powerManagement clk) s)).
    inversion W as [| c l Wc Wrest]; subst.
    pose proof (powerManagement_charging clk s D Wc) as E.
    assert (Wrest' : Forall (fun c => in_window (exec (powerManagement clk) s) c = true) rest).
    { eapply Forall_impl; [ | exact Wrest ].
      intros c Hc. rewrite powerManagement_in_window. exact Hc. }
    revert E Wrest'. generalize (exec (powerManagement clk) s). intros s1 E Wrest'.
    specialize (IH s1).
    unfold begin_session in E. rewrite CE in E.
    destruct_state s. simpl in *.
    destruct IH as [R1 R2]; [ reflexivity | reflexivity | exact Wrest' | ].
    rewrite R1, R2. split; reflexivity.
Qed.

(** C4.  A charging session interrupted from the dashboard is folded into
    [savedRuntime] by the first disabled callback
    ([savedRuntime += now - runtimeStart], with [T1 = now - runtimeStart]);
    whatever further disabled callbacks follow, once [disable] is switched
    off inside the same window and the resumed session has run for [T2]
    seconds, the saved time is still there, the session counts from the
    resuming callback, and the progress is the percentage of
    [savedRuntime + T1 + T2], not of [T2] alone: the stored value is within
    a factor [1 + 2^-20] of 100 * (savedRuntime + T1 + T2) / (stop - start)
    and the reported integer within one of that percentage rounded down. *)
Theorem C4_saved_runtime_carries_over :
  forall (s0 : State) (mc1 ms1 mc2 ms2 : Z) (clk1 : Clock) (idle : list Clock)
         (clk3 : Clock) (more : list Clock) (T1 T2 : Z),
    chargeState s0 = S_CHARGING ->
    disable s0 = false ->
    BLYNK_DEBOUNCE_TIME < to_uint32 (mc1 - lastPress_disable s0) ->
    BLYNK_DEBOUNCE_TIME < to_uint32 (mc2 - ms1) ->
    Forall (fun clk => start s0 <= currentTimeinSecs clk < stop s0) (clk3 :: more) ->
    t_session clk1 = runtimeStart s0 + T1 ->
    t_report (last more clk3) = t_session clk3 + T2 ->
    let s1 := exec (powerManagement clk1)
                (exec (BLYNK_WRITE_FORCE_DISABLE mc1 ms1) s0) in
    let s2 := ticks idle s1 in
    let s3 := ticks (clk3 :: more)
                (exec (BLYNK_WRITE_FORCE_DISABLE mc2 ms2) s2) in
    let total := savedRuntime s0 + T1 + T2 in
    let window := stop s0 - start s0 in
    chargeState s1 = S_DISABLED /\
    savedRuntime s1 = to_uint32 (savedRuntime s0 + T1) /\
    chargeState s3 = S_CHARGING /\
    chargeProgress s3 =
      progress_percent (to_uint32 (savedRuntime s0 + T1 + T2))
        (to_int32 (stop s0 - start s0)) /\
    savedRuntime s3 = to_uint32 (savedRuntime s0 + T1) /\
    runtimeStart s3 = t_session clk3 /\
    (0 <= total < 2 ^ 32 -> window < 2 ^ 31 ->
     (1 <= total ->
      near (1048577 # 1048576)
           (float_value (chargeProgress s3) * inject_Z window)
           (100 * inject_Z total)) /\
     (total <= 1000 * window ->
      100 * total / window - 1
      <= int_of_float (chargeProgress s3)
      <= 100 * total / window + 1)).
Proof.
  intros s0 mc1 ms1 mc2 ms2 clk1 idle clk3 more T1 T2
         C0 D0 P1 P2 W E1 E2 s1 s2 s3 total window.
  (* the first disabled callback *)
  assert (I1 : disabled_idle (to_uint32 (savedRuntime s0 + T1)) (start s0) (stop s0)
                 (to_int32 ms1) s1).
  { subst s1. rewrite (BLYNK_WRITE_FORCE_DISABLE_accepts mc1 ms1 s0 P1).
    rewrite powerManagement_disabled by (destruct_state s0; reflexivity).
    replace (savedRuntime s0 + T1)
      with (savedRuntime s0 + (t_session clk1 - runtimeStart s0)) by lia.
    destruct_state s0. simpl. constructor; reflexivity. }
  (* the disabled callbacks that follow *)
  assert (I2 : disabled_idle (to_uint32 (savedRuntime s0 + T1)) (start s0) (stop s0)
                 (to_int32 ms1) s2).
  { subst s2. apply ticks_disabled_idle. exact I1. }
  split; [ apply (idle_state _ _ _ _ _ I1) | ].
  split; [ apply (idle_saved _ _ _ _ _ I1) | ].
  (* the dashboard switches [disable] off *)
  destruct I2 as [D2 C2 CE2 SV2 ST2 SP2 LP2].
  assert (P2' : BLYNK_DEBOUNCE_TIME < to_uint32 (mc2 - lastPress_disable s2)).
  { rewrite LP2, to_uint32_sub_int32. exact P2. }
  subst s3. rewrite (BLYNK_WRITE_FORCE_DISABLE_accepts mc2 ms2 s2 P2').
  clear P2' I1. revert D2 C2 CE2 SV2 ST2 SP2 LP2. generalize s2. clear s2 s1.
  intros s2 D2 C2 CE2 SV2 ST2 SP2 LP2.
  (* the callback that resumes the session *)
  pose proof W as W0.
  inversion W as [| c l W3 Wmore]; subst c l.
  change (ticks (clk3 :: more) ?s) with (ticks more (exec (powerManagement clk3) s)).
  set (s2' := set_lastPress_disable (to_int32 ms2) (set_disable (negb (disable s2)) s2)).
  assert (D2' : disable s2' = false) by (subst s2'; destruct_state s2; reflexivity).
  assert (W2' : in_window s2' clk3 = true).
  { apply in_window_true_iff. subst s2'. destruct_state s2. exact W3. }
  pose proof (powerManagement_charging clk3 s2' D2' W2') as E3.
  assert (Wmore' : Forall (fun c => in_window (exec (powerManagement clk3) s2') c = true) more).
  { eapply Forall_impl; [ | exact Wmore ].
    intros c Hc. rewrite powerManagement_in_window.
    apply in_window_true_iff. subst s2'. destruct_state s2. exact Hc. }
  revert E3 Wmore'. generalize (exec (powerManagement clk3) s2'). intros s3 E3 Wmore'.
  unfold begin_session in E3.
  assert (CE2' : counterEnabled s2' = false) by (subst s2'; destruct_state s2; reflexivity).
  rewrite CE2' in E3.
  assert (D3 : disable s3 = false)
    by (rewrite E3; subst s2'; destruct_state s2; reflexivity).
  assert (CE3 : counterEnabled s3 = true)
    by (rewrite E3; subst s2'; destruct_state s2; reflexivity).
  assert (SV3 : savedRuntime s3 = to_uint32 (savedRuntime s0 + T1))
    by (rewrite E3; subst s2'; rewrite <- SV2; destruct_state s2; reflexivity).
  assert (RS3 : runtimeStart s3 = t_session clk3)
    by (rewrite E3; subst s2'; destruct_state s2; reflexivity).
  destruct (ticks_charging_session more s3 D3 CE3 Wmore') as [K1 K2].
  destruct (ticks_charging more s3 clk3) as [R1 R2].
  - exact D3.
  - exact CE3.
  - rewrite E3. subst s2'. destruct_state s2. reflexivity.
  - rewrite E3. subst s2'. destruct_state s2. reflexivity.
  - exact Wmore'.
  - assert (P : chargeProgress (ticks more s3) =
                progress_percent (to_uint32 (savedRuntime s0 + T1 + T2))
                  (to_int32 (stop s0 - start s0))).
    { rewrite R2, E2, E3.
      subst s2'. destruct_state s2. simpl.
      replace (t_session clk3 + T2 - t_session clk3
               + to_uint32 (savedRuntime s0 + T1))
        with (T2 + to_uint32 (savedRuntime s0 + T1)) by lia.
      rewrite to_uint32_add_r.
      replace (T2 + (savedRuntime s0 + T1)) with (savedRuntime s0 + T1 + T2) by lia.
      reflexivity. }
    split; [ exact R1 | ]. split; [ exact P | ].
    split; [ rewrite K2; exact SV3 | ].
    split; [ rewrite K1; exact RS3 | ].
    intros TR WR.
    destruct (progress_percent_accuracy total window TR ltac:(subst window; lia))
      as (_ & A1 & A2).
    rewrite P. fold total window.
    rewrite (to_uint32_small total TR).
    rewrite (to_int32_small window) by (subst window; lia).
    split; [ exact A1 | exact A2 ].
Qed.

Lemma C4_witness :
  let s0 := exec (powerManagement (at_time 0)) init in
  let s1 := exec (powerManagement (at_time 3600))
              (exec (BLYNK_WRITE_FORCE_DISABLE 100000 100000) s0) in
  let s2 := ticks [at_time 3605] s1 in
  let s3 := ticks [at_time 3610; at_time 9010]
              (exec (BLYNK_WRITE_FORCE_DISABLE 200000 200000) s2) in
  savedRuntime s3 = to_uint32 (savedRuntime s0 + 3600) /\
  100 * (savedRuntime s0 + 3600 + 5400) / (stop s0 - start s0) - 1
  <= int_of_float (chargeProgress s3)
  <= 100 * (savedRuntime s0 + 3600 + 5400) / (stop s0 - start s0) + 1.
Proof.
  intros s0 s1 s2 s3.
  assert (C0 : chargeState s0 = S_CHARGING) by reflexivity.
  assert (D0 : disable s0 = false) by reflexivity.
  assert (P1 : BLYNK_DEBOUNCE_TIME < to_uint32 (100000 - lastPress_disable s0))
    by (vm_compute; reflexivity).
  assert (P2 : BLYNK_DEBOUNCE_TIME < to_uint32 (200000 - 100000))
    by (vm_compute; reflexivity).
  assert (W : Forall (fun clk => start s0 <= currentTimeinSecs clk < stop s0)
                [at_time 3610; at_time 9010])
    by (repeat constructor; vm_compute; discriminate).
  assert (E1 : t_session (at_time 3600) = runtimeStart s0 + 3600) by reflexivity.
  assert (E2 : t_report (last [at_time 9010] (at_time 3610))
               = t_session (at_time 3610) + 5400) by reflexivity.
  destruct (C4_saved_runtime_carries_over s0 100000 100000 200000 200000
              (at_time 3600) [at_time 3605] (at_time 3610) [at_time 9010]
              3600 5400 C0 D0 P1 P2 W E1 E2)
    as (_ & _ & _ & _ & SV & _ & N).
  split; [ exact SV | ].
  assert (TR : 0 <= savedRuntime s0 + 3600 + 5400 < 2 ^ 32)
    by (vm_compute; split; [ discriminate | reflexivity ]).
  assert (WR : stop s0 - start s0 < 2 ^ 31) by (vm_compute; reflexivity).
  destruct (N TR WR) as [_ B]. apply B. vm_compute. discriminate.
Defined.

(** The carried-over progress is visible: one hour before and one hour
    after the interruption show as 33 % of the six-hour window, where the
    resumed hour alone would show as 16 %. *)
Lemma C4_progress_example :
  int_of_float (progress_percent (to_uint32 (0 + 3600 + 3600)) (to_int32 (21600 - 0))) = 33 /\
  int_of_float (progress_percent (to_uint32 3600) (to_int32 (21600 - 0))) = 16.
Proof. split; vm_compute; reflexivity. Qed.

(** ** Debouncing the switch *)

Lemma edge_flips_dropped (t2 : Z) (s : State) :
  debounce s = true -> edge_flips [Edge t2] s = O.
Proof.
  intros D. simpl. rewrite (manualOverride_drops t2 s D).
  rewrite Bool.eqb_reflx. reflexivity.
Qed.

Lemma edge_flips_accepted (t2 : Z) (s : State) :
  debounce s = false -> edge_flips [Edge t2] s = 1%nat.
Proof.
  intros D. simpl. rewrite (manualOverride_accepts t2 s D).
  destruct_state s. destruct man; reflexivity.
Qed.

(** An iteration of [loop] no later than 250 ms after the window was opened
    leaves it open. *)
Lemma loop_keeps_window (millis t : Z) (timer : option Clock)
    (incoming : list BlynkCmd) (s : State) :
  debounce s = true -> debounceStart s = t ->
  0 <= t <= millis -> millis <= t + DEBOUNCE_TIME -> millis < 2 ^ 32 ->
  debounce (exec (loop millis timer incoming) s) = true /\
  debounceStart (exec (loop millis timer incoming) s) = t.
Proof.
  intros D S B1 B2 B3.
  destruct (loop_debounce_only millis timer incoming s) as [L1 L2].
  rewrite L1, L2, loop_debounce_exec, D, S. split; [ | reflexivity ].
  rewrite to_uint32_small by lia.
  destruct (DEBOUNCE_TIME <? millis - t) eqn:E.
  - apply Z.ltb_lt in E. lia.
  - simpl. exact D.
Qed.

(** An iteration later than that closes it. *)
Lemma loop_closes_window (millis t : Z) (timer : option Clock)
    (incoming : list BlynkCmd) (s : State) :
  debounce s = true -> debounceStart s = t ->
  0 <= t -> t + DEBOUNCE_TIME < millis -> millis < 2 ^ 32 ->
  debounce (exec (loop millis timer incoming) s) = false.
Proof.
  intros D S B1 B2 B3. unfold DEBOUNCE_TIME in *.
  destruct (loop_debounce_only millis timer incoming s) as [L1 _].
  rewrite L1, loop_debounce_exec, D, S. unfold DEBOUNCE_TIME.
  rewrite to_uint32_small by lia.
  destruct (250 <? millis - t) eqn:E.
  - simpl. destruct_state s. reflexivity.
  - apply Z.ltb_ge in E. lia.
Qed.

(** With no window open, [loop] opens none. *)
Lemma loop_stays_closed (millis : Z) (timer : option Clock)
    (incoming : list BlynkCmd) (s : State) :
  debounce s = false ->
  debounce (exec (loop millis timer incoming) s) = false.
Proof.
  intros D.
  destruct (loop_debounce_only millis timer incoming s) as [L1 _].
  rewrite L1, loop_debounce_exec, D. simpl. exact D.
Qed.

(** An iteration of [loop] closes an open window exactly when the unsigned
    difference between its reading of [millis()] and the start of the
    window exceeds 250; it never moves the start. *)
Lemma loop_window_elapsed (millis t : Z) (timer : option Clock)
    (incoming : list BlynkCmd) (s : State) :
  debounce s = true -> debounceStart s = t ->
  debounce (exec (loop millis timer incoming) s)
  = negb (DEBOUNCE_TIME <? elapsed_since t millis) /\
  debounceStart (exec (loop millis timer incoming) s) = t.
Proof.
  intros D S. unfold elapsed_since.
  destruct (loop_debounce_only millis timer incoming s) as [L1 L2].
  rewrite L1, L2, loop_debounce_exec, D, S. split; [ | reflexivity ].
  simpl. destruct (DEBOUNCE_TIME <? to_uint32 (millis - t)); simpl;
    [ destruct_state s; reflexivity | exact D ].
Qed.

Lemma elapsed_since_offset (t d : Z) :
  0 <= d < 2 ^ 32 -> elapsed_since t (to_uint32 (t + d)) = d.
Proof.
  intros B. unfold elapsed_since, to_uint32. rewrite Zminus_mod_idemp_l.
  replace (t + d - t) with d by lia. apply Z.mod_small. exact B.
Qed.

Lemma edge_flips_window_open (evs : list Event) :
  forall (s : State) (t t2 : Z),
    debounce s = true -> debounceStart s = t ->
    Forall (loop_elapsed t 0 DEBOUNCE_TIME) evs ->
    edge_flips (evs ++ [Edge t2]) s = O.
Proof.
  induction evs as [| ev rest IH]; intros s t t2 D S F.
  - apply edge_flips_dropped. exact D.
  - inversion F as [| e l Fev Frest]; subst e l.
    destruct ev as [millis | millis timer incoming]; [ destruct Fev | ].
    simpl in Fev.
    change (edge_flips ((Loop millis timer incoming :: rest) ++ [Edge t2]) s)
      with (edge_flips (rest ++ [Edge t2])
              (exec (loop millis timer incoming) s)).
    destruct (loop_window_elapsed millis t timer incoming s D S) as [D' S'].
    apply (IH _ t t2); [ | exact S' | exact Frest ].
    rewrite D'. apply negb_true_iff. apply Z.ltb_ge. lia.
Qed.

Lemma edge_flips_window_closed (evs : list Event) :
  forall (s : State) (t lo hi t2 : Z),
    debounce s = false ->
    Forall (loop_elapsed t lo hi) evs ->
    edge_flips (evs ++ [Edge t2]) s = 1%nat.
Proof.
  induction evs as [| ev rest IH]; intros s t lo hi t2 D F.
  - apply edge_flips_accepted. exact D.
  - inversion F as [| e l Fev Frest]; subst e l.
    destruct ev as [millis | millis timer incoming]; [ destruct Fev | ].
    change (edge_flips ((Loop millis timer incoming :: rest) ++ [Edge t2]) s)
      with (edge_flips (rest ++ [Edge t2])
              (exec (loop millis timer incoming) s)).
    apply (IH _ t lo hi t2); [ | exact Frest ].
    apply loop_stays_closed. exact D.
Qed.

Lemma edge_flips_window_expires (evs : list Event) :
  forall (s : State) (t lo hi t2 : Z),
    debounce s = true -> debounceStart s = t ->
    Forall (loop_elapsed t lo hi) evs ->
    Exists (loop_later t DEBOUNCE_TIME) evs ->
    edge_flips (evs ++ [Edge t2]) s = 1%nat.
Proof.
  induction evs as [| ev rest IH]; intros s t lo hi t2 D S F X.
  - inversion X.
  - inversion F as [| e l Fev Frest]; subst e l.
    destruct ev as [millis | millis timer incoming]; [ destruct Fev | ].
    change (edge_flips ((Loop millis timer incoming :: rest) ++ [Edge t2]) s)
      with (edge_flips (rest ++ [Edge t2])
              (exec (loop millis timer incoming) s)).
    destruct (loop_window_elapsed millis t timer incoming s D S) as [D' S'].
    destruct (DEBOUNCE_TIME <? elapsed_since t millis) eqn:Late.
    + apply (edge_flips_window_closed rest _ t lo hi t2); [ exact D' | exact Frest ].
    + apply (IH _ t lo hi t2); [ exact D' | exact S' | exact Frest | ].
      inversion X as [e l Xev | e l Xrest]; subst e l.
      * simpl in Xev. apply Z.ltb_ge in Late. lia.
      * exact Xrest.
Qed.

(** C8, as stated, does not hold: the window is closed by [loop], not by
    the passing of time.  With iterations of [loop] 10 ms and 200 ms after
    the first edge and none later, the window is still open when the edge
    300 ms after the first arrives, and that edge is dropped: one flip. *)
Lemma C8_counterexample :
  ~ (forall (s : State) (t : Z) (evs : list Event),
        debounce s = false ->
        Forall (loop_elapsed t 0 300) evs ->
        edge_flips (Edge t :: evs ++ [Edge (to_uint32 (t + 300))]) s = 2%nat).
Proof.
  intros H.
  specialize (H (set_debounce false init) 1000
                [Loop 1010 None []; Loop 1200 None []] eq_refl).
  assert (F : Forall (loop_elapsed 1000 0 300)
                [Loop 1010 None []; Loop 1200 None []]).
  { repeat constructor; vm_compute; discriminate. }
  specialize (H F). vm_compute in H. discriminate H.
Qed.

(** C8, amended.  An edge arriving while no debounce window is open flips
    [manual] once and opens a window at the current time; while the window
    is open further edges are dropped without effect; an iteration of
    [loop] leaves the window open when it runs up to 250 ms after the
    window was opened and closes it when it runs later, the time being
    measured as the sketch does, modulo 2^32.  Hence of two edges 50 ms
    apart exactly one flips [manual], and of two edges 300 ms apart both
    do, provided an iteration of [loop] runs in between more than 250 ms
    after the first edge. *)
Theorem C8_debounce :
  forall (s : State) (t : Z) (evs50 evs300 : list Event),
    debounce s = false ->
    Forall (loop_elapsed t 0 50) evs50 ->
    Forall (loop_elapsed t 0 300) evs300 ->
    Exists (loop_later t DEBOUNCE_TIME) evs300 ->
    let s1 := exec (manualOverride t) s in
    (manual s1 = negb (manual s) /\ debounce s1 = true /\ debounceStart s1 = t) /\
    (forall t', exec (manualOverride t') s1 = s1) /\
    (forall millis timer incoming,
        debounce (exec (loop millis timer incoming) s1)
        = negb (DEBOUNCE_TIME <? elapsed_since t millis)) /\
    (forall d timer incoming,
        0 <= d < 2 ^ 32 ->
        debounce (exec (loop (to_uint32 (t + d)) timer incoming) s1)
        = negb (DEBOUNCE_TIME <? d)) /\
    edge_flips (Edge t :: evs50 ++ [Edge (to_uint32 (t + 50))]) s = 1%nat /\
    edge_flips (Edge t :: evs300 ++ [Edge (to_uint32 (t + 300))]) s = 2%nat.
Proof.
  intros s t evs50 evs300 D F50 F300 X s1.
  assert (O1 : manual s1 = negb (manual s) /\ debounce s1 = true
               /\ debounceStart s1 = t).
  { subst s1. rewrite (manualOverride_accepts t s D).
    destruct_state s. repeat split. }
  destruct O1 as (M1 & D1 & S1).
  assert (First : forall rest,
             edge_flips (Edge t :: rest) s = S (edge_flips rest s1)).
  { intros rest. change (edge_flips (Edge t :: rest) s)
      with (((if Bool.eqb (manual s1) (manual s) then O else 1%nat)
             + edge_flips rest s1)%nat).
    rewrite M1. destruct (manual s); reflexivity. }
  split; [ repeat split; assumption | ].
  split; [ intros t'; apply manualOverride_drops; exact D1 | ].
  split; [ intros millis timer incoming;
           apply (loop_window_elapsed millis t timer incoming s1 D1 S1) | ].
  split.
  { intros d timer incoming B.
    rewrite <- (elapsed_since_offset t d B) at 2.
    apply (loop_window_elapsed _ t timer incoming s1 D1 S1). }
  split.
  - rewrite First. f_equal.
    apply (edge_flips_window_open evs50 s1 t); try assumption.
    eapply Forall_impl; [ | exact F50 ].
    intros [m | m tm inc]; simpl; unfold DEBOUNCE_TIME; [ tauto | lia ].
  - rewrite First. f_equal.
    apply (edge_flips_window_expires evs300 s1 t 0 300); assumption.
Qed.

Lemma C8_witness :
  let s := set_debounce false init in
  edge_flips [Edge 4294967200; Loop 4294967210 None [];
              Edge (to_uint32 (4294967200 + 50))] s = 1%nat /\
  edge_flips [Edge 4294967200; Loop 4294967210 None []; Loop 164 None [];
              Edge (to_uint32 (4294967200 + 300))] s = 2%nat.
Proof.
  intros s.
  apply (proj2 (proj2 (proj2 (proj2
           (C8_debounce s 4294967200 [Loop 4294967210 None []]
              [Loop 4294967210 None []; Loop 164 None []]
              eq_refl
              ltac:(repeat constructor; vm_compute; discriminate)
              ltac:(repeat constructor; vm_compute; discriminate)
              ltac:(apply Exists_cons_tl; apply Exists_cons_hd;
                    vm_compute; reflexivity)))))).
Defined.

(** * Further properties of the sketch *)

(** ** Time of day and the window *)

(** X1.  The time of day that [powerManagement] compares with the schedule,
    rebuilt from TimeLib's hour, minute and second, is the number of
    seconds since midnight: the timestamp modulo 86400, between 0 and
    86399. *)
Theorem time_of_day_is_seconds_since_midnight :
  forall clk : Clock,
    currentTimeinSecs clk = to_uint32 (t_entry clk) mod 86400 /\
    0 <= currentTimeinSecs clk < 86400.
Proof.
  intros clk. split; [ apply currentTimeinSecs_mod | apply currentTimeinSecs_range ].
Qed.

(** X2.  The schedule repeats daily: two callbacks whose entry timestamps
    agree modulo 86400 derive the same state and power output from the
    same stored state. *)
Theorem schedule_repeats_daily :
  forall (s : State) (clk clk' : Clock),
    to_uint32 (t_entry clk) mod 86400 = to_uint32 (t_entry clk') mod 86400 ->
    chargeState (exec (powerManagement clk) s)
    = chargeState (exec (powerManagement clk') s) /\
    power_enable (exec (powerManagement clk) s)
    = power_enable (exec (powerManagement clk') s).
Proof.
  intros s clk clk' H. unfold power_enable.
  rewrite !powerManagement_chargeState, !powerManagement_charging_flag.
  assert (E : decide s clk = decide s clk').
  { unfold decide, in_window. rewrite !currentTimeinSecs_mod, H. reflexivity. }
  rewrite E. split; reflexivity.
Qed.

Lemma schedule_repeats_daily_witness :
  chargeState (exec (powerManagement (at_time 7200)) init)
  = chargeState (exec (powerManagement (at_time (7200 + 3 * 86400))) init) /\
  power_enable (exec (powerManagement (at_time 7200)) init)
  = power_enable (exec (powerManagement (at_time (7200 + 3 * 86400))) init).
Proof.
  apply (schedule_repeats_daily init (at_time 7200) (at_time (7200 + 3 * 86400))).
  vm_compute. reflexivity.
Defined.

(** X3.  A window that is empty or lies outside the day is never entered:
    when [stop <= start], [start >= 86400] or [stop <= 0], every callback
    with [disable] clear ends in [S_MANUAL] or [S_QUIESCENT] according to
    the [manual] flag alone, at any time. *)
Theorem degenerate_window_never_charges :
  forall (s : State) (clk : Clock),
    disable s = false ->
    stop s <= start s \/ 86400 <= start s \/ stop s <= 0 ->
    let s' := exec (powerManagement clk) s in
    chargeState s' = (if manual s then S_MANUAL else S_QUIESCENT) /\
    power_enable s' = manual s.
Proof.
  intros s clk D G s'. subst s'. unfold power_enable.
  rewrite powerManagement_chargeState, powerManagement_charging_flag.
  assert (W : in_window s clk = false).
  { apply in_window_false_iff. pose proof (currentTimeinSecs_range clk). lia. }
  unfold decide. rewrite D, W. destruct (manual s); split; reflexivity.
Qed.

Lemma degenerate_window_never_charges_witness :
  let s := exec (BLYNK_WRITE_SCHEDULE (mkTimeInput true 30000 true 7200)) init in
  let s' := exec (powerManagement (at_time 10000)) s in
  chargeState s' = S_QUIESCENT /\ power_enable s' = false.
Proof.
  intros s.
  apply (degenerate_window_never_charges s (at_time 10000) eq_refl).
  left. vm_compute. discriminate.
Defined.

(** X4.  The manual flag has no effect during a scheduled cycle or while
    disabled: in those two cases the callback leaves the same state and
    the same trace whatever [manual] was before it. *)
Theorem manual_ignored_in_window_or_disabled :
  forall (s : State) (clk : Clock) (b : bool),
    disable s = true \/ in_window s clk = true ->
    exec (powerManagement clk) (set_manual b s) = exec (powerManagement clk) s /\
    trace (powerManagement clk) (set_manual b s) = trace (powerManagement clk) s.
Proof.
  intros s clk b H. unfold in_window in H. destruct_state s.
  unfold powerManagement. unfold_cmd.
  destruct dis; simpl.
  - destruct cs, lcs; simpl; split; reflexivity.
  - destruct H as [H | H]; [ discriminate H | ]. rewrite H. simpl.
    destruct ce, lcs; simpl; split; reflexivity.
Qed.

Lemma manual_ignored_in_window_or_disabled_witness :
  exec (powerManagement (at_time 7200)) (set_manual true init)
  = exec (powerManagement (at_time 7200)) init /\
  trace (powerManagement (at_time 7200)) (set_manual true init)
  = trace (powerManagement (at_time 7200)) init.
Proof.
  apply (manual_ignored_in_window_or_disabled init (at_time 7200) true).
  right. reflexivity.
Defined.

(** ** Invariants of the runtime accounting *)

Lemma powerManagement_savedRuntime (clk : Clock) (s : State) :
  savedRuntime (exec (powerManagement clk) s) =
  if disable s then
    if ChargeState_eqb (chargeState s) S_CHARGING
    then to_uint32 (savedRuntime s + (t_session clk - runtimeStart s))
    else savedRuntime s
  else if in_window s clk then savedRuntime s else 0.
Proof.
  pm_cases s clk; unfold begin_session; destruct_state s; break_if; reflexivity.
Qed.

Lemma powerManagement_accounted (clk : Clock) (s : State) :
  0 <= savedRuntime s < 2 ^ 32 -> accounted (exec (powerManagement clk) s).
Proof.
  intros R. unfold accounted.
  rewrite powerManagement_charging_flag, powerManagement_chargeState,
    powerManagement_savedRuntime.
  split; [ reflexivity | ].
  pose proof (to_uint32_range (savedRuntime s + (t_session clk - runtimeStart s))).
  unfold decide.
  destruct (disable s), (in_window s clk), (manual s),
    (ChargeState_eqb (chargeState s) S_CHARGING);
    (split; [ lia | intros [E | E]; try discriminate E; reflexivity ]).
Qed.

Lemma same_session_accounted (s s' : State) :
  same_session s s' -> accounted s -> accounted s'.
Proof.
  unfold same_session, accounted.
  intros (H1 & _ & _ & H4 & _ & H6 & _) (A1 & A2 & A3).
  rewrite H1, H4, H6. repeat split; try assumption; lia.
Qed.

Lemma step_accounted (ev : Event) (s : State) :
  accounted s -> accounted (exec (step ev) s).
Proof.
  intros A. destruct ev as [millis | millis timer incoming]; simpl.
  - destruct (debounce s) eqn:D.
    + rewrite manualOverride_drops by exact D. exact A.
    + rewrite manualOverride_accepts by exact D.
      unfold accounted in *. destruct_state s. exact A.
  - rewrite loop_exec.
    eapply same_session_accounted; [ apply Blynk_run_same_session | ].
    assert (A' : accounted (exec (loop_debounce millis) s)).
    { rewrite loop_debounce_exec. unfold accounted in *.
      destruct_state s. break_if; exact A. }
    destruct timer as [clk |]; simpl.
    + apply powerManagement_accounted. apply A'.
    + exact A'.
Qed.

Lemma reachable_accounted (s : State) : reachable s -> accounted s.
Proof.
  induction 1 as [| s ev R IH].
  - unfold accounted. simpl. repeat split; try lia.
  - apply step_accounted. exact IH.
Qed.

(** X5.  In every reachable state the flag that drives the charging MOSFET
    is on exactly when the state is [S_CHARGING] or [S_MANUAL]. *)
Theorem power_on_iff_counted_state :
  forall s : State,
    reachable s ->
    (power_enable s = true <->
     chargeState s = S_CHARGING \/ chargeState s = S_MANUAL).
Proof.
  intros s R. destruct (reachable_accounted s R) as (A & _).
  unfold power_enable. rewrite A.
  destruct (chargeState s); simpl; split;
    try (intros H; discriminate H);
    try (intros [H | H]; discriminate H);
    try (intros _; reflexivity);
    intros _; [ right | left ]; reflexivity.
Qed.

Lemma power_on_iff_counted_state_witness :
  power_enable manual_session_running = true <->
  chargeState manual_session_running = S_CHARGING \/
  chargeState manual_session_running = S_MANUAL.
Proof.
  apply (power_on_iff_counted_state manual_session_running).
  unfold manual_session_running. do 2 apply reachable_step. apply reachable_init.
Defined.

(** X6.  In every reachable state [savedRuntime] is within the range of
    [uint32_t], and it is zero whenever the state is [S_MANUAL] or
    [S_QUIESCENT]: saved runtime exists only during a scheduled cycle and
    while disabled. *)
Theorem saved_runtime_only_in_cycle :
  forall s : State,
    reachable s ->
    0 <= savedRuntime s < 2 ^ 32 /\
    (chargeState s = S_MANUAL \/ chargeState s = S_QUIESCENT ->
     savedRuntime s = 0).
Proof.
  intros s R. destruct (reachable_accounted s R) as (_ & A2 & A3).
  split; assumption.
Qed.

Lemma saved_runtime_only_in_cycle_witness :
  0 <= savedRuntime manual_session_running < 2 ^ 32 /\
  (chargeState manual_session_running = S_MANUAL \/
   chargeState manual_session_running = S_QUIESCENT ->
   savedRuntime manual_session_running = 0).
Proof.
  apply (saved_runtime_only_in_cycle manual_session_running).
  unfold manual_session_running. do 2 apply reachable_step. apply reachable_init.
Defined.

(** X7.  Every iteration of [loop] that starts in a reachable state ends
    by driving the ENABLE pin high exactly when the state it leaves is
    [S_CHARGING] or [S_MANUAL]. *)
Theorem loop_drives_pin_by_state :
  forall (s : State) (millis : Z) (timer : option Clock)
         (incoming : list BlynkCmd),
    reachable s ->
    exists tr,
      trace (loop millis timer incoming) s =
      tr ++ [digitalWrite_ENABLE
               (counted (chargeState (exec (loop millis timer incoming) s)))].
Proof.
  intros s millis timer incoming R.
  destruct (loop_drives_enable millis timer incoming s) as [tr E].
  exists tr. rewrite E. unfold power_enable.
  pose proof (reachable_step s (Loop millis timer incoming) R) as R'.
  simpl in R'. destruct (reachable_accounted _ R') as (A & _).
  rewrite A. reflexivity.
Qed.

Lemma loop_drives_pin_by_state_witness :
  exists tr,
    trace (loop 10000 (Some (at_time 7200)) []) init =
    tr ++ [digitalWrite_ENABLE
             (counted (chargeState (exec (loop 10000 (Some (at_time 7200)) []) init)))].
Proof.
  apply (loop_drives_pin_by_state init 10000 (Some (at_time 7200)) []).
  apply reachable_init.
Defined.

(** ** The progress bar *)

(** X8.  The dashboard's progress bar is written on every callback that
    ends in [S_CHARGING] (with the percentage converted to [int]), reset to
    0 by the callback that starts a manual session, and written by no other
    callback; [chargeProgress] itself changes only in [S_CHARGING], so the
    last percentage stays on record after the cycle.  The integer written
    in [S_CHARGING] is within one of the exact percentage
    100 * elapsed / (stop - start) rounded down, for a window that is an
    [int] and an elapsed time of up to 1000 windows. *)
Theorem progress_bar_writes :
  forall (s : State) (clk : Clock),
    let s' := exec (powerManagement clk) s in
    let shown := int_of_float (chargeProgress s') in
    let elapsed := to_uint32 (t_report clk - runtimeStart s' + savedRuntime s') in
    filter is_progress_write (trace (powerManagement clk) s) =
      match chargeState s' with
      | S_CHARGING => [virtualWrite PROGRESS_BAR [VInt shown]]
      | S_MANUAL =>
          if counterEnabled s then [] else [virtualWrite PROGRESS_BAR [VInt 0]]
      | _ => []
      end /\
    (chargeState s' <> S_CHARGING -> chargeProgress s' = chargeProgress s) /\
    INT_MIN <= shown <= INT_MAX /\
    (chargeState s' = S_CHARGING ->
     stop s - start s < 2 ^ 31 ->
     elapsed <= 1000 * (stop s - start s) ->
     100 * elapsed / (stop s - start s) - 1
     <= shown
     <= 100 * elapsed / (stop s - start s) + 1).
Proof.
  intros s clk s' shown elapsed.
  split; [ | split; [ | split ] ].
  - subst shown s'. destruct_state s.
    unfold powerManagement. unfold_cmd.
    destruct dis; simpl.
    + destruct cs, lcs; reflexivity.
    + destruct ((st <=? currentTimeinSecs clk) && (currentTimeinSecs clk <? sp));
        simpl; [ | destruct man; simpl ];
        destruct ce, lcs; reflexivity.
  - subst s'. destruct_state s.
    unfold powerManagement. unfold_cmd.
    destruct dis; simpl.
    + destruct cs, lcs; reflexivity.
    + destruct ((st <=? currentTimeinSecs clk) && (currentTimeinSecs clk <? sp));
        simpl; [ | destruct man; simpl ];
        destruct ce, lcs; simpl;
        intros N; try reflexivity; exfalso; apply N; reflexivity.
  - pose proof (int_of_float_range (chargeProgress s')).
    unfold INT_MIN, INT_MAX. fold shown. lia.
  - intros C R B.
    assert (DW : disable s = false /\ in_window s clk = true).
    { subst s'. rewrite powerManagement_chargeState in C. unfold decide in C.
      destruct (disable s); [ discriminate C | ].
      destruct (in_window s clk); [ split; reflexivity | ].
      destruct (manual s); discriminate C. }
    destruct DW as [D W].
    pose proof (proj1 (in_window_true_iff s clk) W) as W0.
    pose proof (powerManagement_charging_progress clk s D W) as P.
    cbv zeta in P. fold s' in P. fold elapsed in P.
    rewrite to_int32_small in P by lia.
    subst shown. rewrite P.
    apply (progress_percent_accuracy elapsed (stop s - start s)).
    + apply to_uint32_range.
    + lia.
    + exact B.
Qed.

Lemma progress_bar_writes_witness :
  let s := exec (powerManagement (at_time 0)) init in
  let s' := exec (powerManagement (at_time 12744)) s in
  filter is_progress_write (trace (powerManagement (at_time 12744)) s)
  = [virtualWrite PROGRESS_BAR [VInt (int_of_float (chargeProgress s'))]] /\
  100 * 12744 / 21600 - 1 <= int_of_float (chargeProgress s')
                          <= 100 * 12744 / 21600 + 1.
Proof.
  intros s s'.
  destruct (progress_bar_writes s (at_time 12744)) as (W & _ & _ & A).
  split; [ exact W | ].
  apply A; [ reflexivity | vm_compute; reflexivity | vm_compute; discriminate ].
Defined.

(** X9.  The divisor of the percentage is never zero: a callback ends in
    [S_CHARGING] only inside the window, where [stop - start] is at least
    1 (and is the [int] the code divides by, as long as the subtraction
    does not overflow). *)
Theorem scheduled_seconds_positive :
  forall (s : State) (clk : Clock),
    chargeState (exec (powerManagement clk) s) = S_CHARGING ->
    stop s - start s < 2 ^ 31 ->
    to_int32 (stop s - start s) = stop s - start s /\
    1 <= to_int32 (stop s - start s).
Proof.
  intros s clk C B. rewrite powerManagement_chargeState in C. unfold decide in C.
  destruct (disable s); [ discriminate C | ].
  destruct (in_window s clk) eqn:W;
    [ | destruct (manual s); discriminate C ].
  apply in_window_true_iff in W.
  rewrite to_int32_small by lia. lia.
Qed.

Lemma scheduled_seconds_positive_witness :
  to_int32 (stop init - start init) = stop init - start init /\
  1 <= to_int32 (stop init - start init).
Proof.
  apply (scheduled_seconds_positive init (at_time 7200)).
  - reflexivity.
  - vm_compute. reflexivity.
Defined.

(** ** Debouncing across the wrap-around of [millis()] *)

Lemma to_uint32_elapsed (t d : Z) :
  0 <= d < 2 ^ 32 -> to_uint32 (to_uint32 (t + d) - t) = d.
Proof.
  intros B. unfold to_uint32. rewrite Zminus_mod_idemp_l.
  replace (t + d - t) with d by lia. apply Z.mod_small. exact B.
Qed.

Lemma BLYNK_WRITE_MANUAL_OVERRIDE_exec (millis_check millis_stamp : Z) (s : State) :
  BLYNK_WRITE_MANUAL_OVERRIDE millis_check millis_stamp s =
  if BLYNK_DEBOUNCE_TIME <? to_uint32 (millis_check - lastPress_manual s)
  then (tt, set_manual (negb (manual s))
              (set_lastPress_manual (to_int32 millis_stamp) s), [])
  else (tt, s, []).
Proof.
  destruct_state s. unfold BLYNK_WRITE_MANUAL_OVERRIDE. unfold_cmd.
  destruct (BLYNK_DEBOUNCE_TIME <? to_uint32 (millis_check - lpm)); reflexivity.
Qed.

Lemma BLYNK_WRITE_FORCE_DISABLE_exec (millis_check millis_stamp : Z) (s : State) :
  BLYNK_WRITE_FORCE_DISABLE millis_check millis_stamp s =
  if BLYNK_DEBOUNCE_TIME <? to_uint32 (millis_check - lastPress_disable s)
  then (tt, set_lastPress_disable (to_int32 millis_stamp)
              (set_disable (negb (disable s)) s),
        [virtualWrite FORCE_DISABLE [VBool (negb (disable s))]])
  else (tt, s, []).
Proof.
  destruct_state s. unfold BLYNK_WRITE_FORCE_DISABLE. unfold_cmd.
  destruct (BLYNK_DEBOUNCE_TIME <? to_uint32 (millis_check - lpd)); reflexivity.
Qed.

(** X10.  The dashboard's manual button is debounced by elapsed time, also
    across the wrap-around of [millis()]: after a press that was accepted
    and stamped at [ms1], a press tested [d] milliseconds later (modulo
    2^32) flips [manual] again when [d > 1000] and changes nothing when
    [d <= 1000]. *)
Theorem dashboard_manual_debounce :
  forall (s : State) (mc1 ms1 d ms2 : Z),
    BLYNK_DEBOUNCE_TIME < to_uint32 (mc1 - lastPress_manual s) ->
    0 <= d < 2 ^ 32 ->
    let s1 := exec (BLYNK_WRITE_MANUAL_OVERRIDE mc1 ms1) s in
    let s2 := exec (BLYNK_WRITE_MANUAL_OVERRIDE (to_uint32 (ms1 + d)) ms2) s1 in
    manual s1 = negb (manual s) /\
    (BLYNK_DEBOUNCE_TIME < d -> manual s2 = manual s) /\
    (d <= BLYNK_DEBOUNCE_TIME -> s2 = s1).
Proof.
  intros s mc1 ms1 d ms2 P B s1 s2. apply Z.ltb_lt in P.
  assert (E1 : s1 = set_manual (negb (manual s))
                      (set_lastPress_manual (to_int32 ms1) s)).
  { subst s1. unfold exec. rewrite BLYNK_WRITE_MANUAL_OVERRIDE_exec, P. reflexivity. }
  assert (L : to_uint32 (to_uint32 (ms1 + d) - lastPress_manual s1) = d).
  { rewrite E1. destruct_state s.
    rewrite to_uint32_sub_int32. apply to_uint32_elapsed. exact B. }
  subst s2. unfold exec at 1 2. rewrite BLYNK_WRITE_MANUAL_OVERRIDE_exec, L.
  split; [ rewrite E1; destruct_state s; reflexivity | split ].
  - intros A. apply Z.ltb_lt in A. rewrite A. simpl.
    rewrite E1. destruct_state s. apply negb_involutive.
  - intros A. apply Z.ltb_ge in A. rewrite A. reflexivity.
Qed.

Lemma dashboard_manual_debounce_witness :
  let s1 := exec (BLYNK_WRITE_MANUAL_OVERRIDE 5000 5000) init in
  exec (BLYNK_WRITE_MANUAL_OVERRIDE (to_uint32 (5000 + 400)) 5400) s1 = s1 /\
  manual (exec (BLYNK_WRITE_MANUAL_OVERRIDE (to_uint32 (5000 + 2000)) 7000) s1)
  = manual init.
Proof.
  assert (P : BLYNK_DEBOUNCE_TIME < to_uint32 (5000 - lastPress_manual init))
    by (vm_compute; reflexivity).
  split.
  - apply (proj2 (proj2 (dashboard_manual_debounce init 5000 5000 400 5400 P
                           ltac:(lia)))).
    unfold BLYNK_DEBOUNCE_TIME. lia.
  - apply (proj1 (proj2 (dashboard_manual_debounce init 5000 5000 2000 7000 P
                           ltac:(lia)))).
    unfold BLYNK_DEBOUNCE_TIME. lia.
Defined.

(** X11.  The dashboard's disable button is debounced the same way, and an
    accepted press echoes the new value of [disable] to the dashboard while
    an ignored press sends nothing. *)
Theorem dashboard_disable_debounce :
  forall (s : State) (mc1 ms1 d ms2 : Z),
    BLYNK_DEBOUNCE_TIME < to_uint32 (mc1 - lastPress_disable s) ->
    0 <= d < 2 ^ 32 ->
    let s1 := exec (BLYNK_WRITE_FORCE_DISABLE mc1 ms1) s in
    let s2 := exec (BLYNK_WRITE_FORCE_DISABLE (to_uint32 (ms1 + d)) ms2) s1 in
    disable s1 = negb (disable s) /\
    trace (BLYNK_WRITE_FORCE_DISABLE mc1 ms1) s
    = [virtualWrite FORCE_DISABLE [VBool (disable s1)]] /\
    (BLYNK_DEBOUNCE_TIME < d ->
     disable s2 = disable s /\
     trace (BLYNK_WRITE_FORCE_DISABLE (to_uint32 (ms1 + d)) ms2) s1
     = [virtualWrite FORCE_DISABLE [VBool (disable s2)]]) /\
    (d <= BLYNK_DEBOUNCE_TIME ->
     s2 = s1 /\
     trace (BLYNK_WRITE_FORCE_DISABLE (to_uint32 (ms1 + d)) ms2) s1 = []).
Proof.
  intros s mc1 ms1 d ms2 P B s1 s2. apply Z.ltb_lt in P.
  assert (E1 : s1 = set_lastPress_disable (to_int32 ms1)
                      (set_disable (negb (disable s)) s)).
  { subst s1. unfold exec. rewrite BLYNK_WRITE_FORCE_DISABLE_exec, P. reflexivity. }
  assert (L : to_uint32 (to_uint32 (ms1 + d) - lastPress_disable s1) = d).
  { rewrite E1. destruct_state s.
    rewrite to_uint32_sub_int32. apply to_uint32_elapsed. exact B. }
  assert (D1 : disable s1 = negb (disable s))
    by (rewrite E1; destruct_state s; reflexivity).
  subst s2. unfold exec at 1 2 3, trace.
  rewrite !BLYNK_WRITE_FORCE_DISABLE_exec, L, P.
  split; [ exact D1 | split; [ simpl; rewrite D1; reflexivity | split ] ].
  - intros A. apply Z.ltb_lt in A. rewrite A. simpl.
    rewrite E1. destruct_state s. rewrite negb_involutive. split; reflexivity.
  - intros A. apply Z.ltb_ge in A. rewrite A. split; reflexivity.
Qed.

Lemma dashboard_disable_debounce_witness :
  let s1 := exec (BLYNK_WRITE_FORCE_DISABLE 4294967000 4294967000) init in
  (exec (BLYNK_WRITE_FORCE_DISABLE (to_uint32 (4294967000 + 400)) 104) s1 = s1 /\
   trace (BLYNK_WRITE_FORCE_DISABLE (to_uint32 (4294967000 + 400)) 104) s1 = []) /\
  disable (exec (BLYNK_WRITE_FORCE_DISABLE (to_uint32 (4294967000 + 2000)) 1704) s1)
  = disable init.
Proof.
  assert (P : BLYNK_DEBOUNCE_TIME < to_uint32 (4294967000 - lastPress_disable init))
    by (vm_compute; reflexivity).
  split.
  - apply (proj2 (proj2 (proj2
             (dashboard_disable_debounce init 4294967000 4294967000 400 104 P
                ltac:(lia))))).
    unfold BLYNK_DEBOUNCE_TIME. lia.
  - apply (proj1 (proj2 (proj2
             (dashboard_disable_debounce init 4294967000 4294967000 2000 1704 P
                ltac:(lia))))).
    unfold BLYNK_DEBOUNCE_TIME. lia.
Defined.

(** X12.  The window of the switch closes by elapsed time, also across the
    wrap-around of [millis()]: with a window opened at [t], the iteration
    of [loop] that runs [d] milliseconds later (modulo 2^32) leaves it open
    when [d <= 250] and closes it when [d > 250], whatever else the
    iteration does. *)
Theorem switch_window_closes_by_elapsed_time :
  forall (s : State) (t d : Z) (timer : option Clock) (incoming : list BlynkCmd),
    debounce s = true ->
    debounceStart s = t ->
    0 <= d < 2 ^ 32 ->
    debounce (exec (loop (to_uint32 (t + d)) timer incoming) s)
    = negb (DEBOUNCE_TIME <? d).
Proof.
  intros s t d timer incoming D S B.
  destruct (loop_debounce_only (to_uint32 (t + d)) timer incoming s) as [L _].
  rewrite L, loop_debounce_exec, D, S, (to_uint32_elapsed t d B). simpl.
  destruct (DEBOUNCE_TIME <? d); simpl; [ destruct_state s; reflexivity | exact D ].
Qed.

Lemma switch_window_closes_by_elapsed_time_witness :
  let s := exec (manualOverride 4294967200) (set_debounce false init) in
  debounce (exec (loop (to_uint32 (4294967200 + 300)) None []) s)
  = negb (DEBOUNCE_TIME <? 300).
Proof.
  intros s.
  apply (switch_window_closes_by_elapsed_time s 4294967200 300 None []).
  - reflexivity.
  - reflexivity.
  - lia.
Defined.

(** X13.  While a window of the switch is open, a burst of edges is
    dropped entirely: over any interleaving of edges and iterations of
    [loop] that run no later than 250 ms after the window was opened, no
    edge flips [manual].  The controller boots with such a window, opened
    at time 0. *)
Theorem burst_inside_window_dropped :
  forall (evs : list Event) (s : State) (t : Z),
    debounce s = true ->
    debounceStart s = t ->
    0 <= t -> t + DEBOUNCE_TIME < 2 ^ 32 ->
    Forall (inside_window t) evs ->
    edge_flips evs s = O.
Proof.
  induction evs as [| ev rest IH]; intros s t D S B1 B2 F.
  - reflexivity.
  - inversion F as [| e l Fev Frest]; subst e l.
    destruct ev as [millis | millis timer incoming].
    + change (edge_flips (Edge millis :: rest) s)
        with (((if Bool.eqb (manual (exec (manualOverride millis) s)) (manual s)
                then O else 1%nat)
               + edge_flips rest (exec (manualOverride millis) s))%nat).
      rewrite (manualOverride_drops millis s D), Bool.eqb_reflx.
      apply (IH s t); assumption.
    + simpl in Fev.
      change (edge_flips (Loop millis timer incoming :: rest) s)
        with (edge_flips rest (exec (loop millis timer incoming) s)).
      destruct (loop_keeps_window millis t timer incoming s D S) as [D' S'];
        try lia.
      apply (IH _ t); assumption.
Qed.

Lemma burst_inside_window_dropped_witness :
  edge_flips [Edge 10; Loop 100 None []; Edge 200; Edge 249;
              Loop 250 (Some (at_time 7200)) []; Edge 250] init = O.
Proof.
  apply (burst_inside_window_dropped _ init 0).
  - reflexivity.
  - reflexivity.
  - lia.
  - unfold DEBOUNCE_TIME. lia.
  - repeat constructor; unfold DEBOUNCE_TIME; lia.
Defined.

(** ** Schedule commands *)

(** X14.  The menu handler keeps only the low eight bits of its parameter
    ([menuSelection] is a [uint8_t]): the stored selection is the parameter
    modulo 256; selections 1, 2 and 3 install the six-, eight- and ten-hour
    presets starting at midnight, every other selection leaves the window
    as it was; and in all cases the stored window is echoed to the
    dashboard's time input. *)
Theorem menu_selects_preset :
  forall (param : Z) (s : State),
    let sel := param mod 256 in
    let s' := exec (BLYNK_WRITE_MENU param) s in
    menuSelection s' = sel /\
    (start s', stop s') =
      (if sel =? 1 then (0, 21600)
       else if sel =? 2 then (0, 28800)
       else if sel =? 3 then (0, 36000)
       else (start s, stop s)) /\
    trace (BLYNK_WRITE_MENU param) s
    = [virtualWrite SCHEDULE [VInt (start s'); VInt (stop s')]].
Proof.
  intros param s sel s'. subst sel s'. destruct_state s.
  unfold BLYNK_WRITE_MENU. unfold_cmd. unfold to_uint8.
  change (2 ^ 8) with 256.
  destruct (param mod 256) as [| [[? | ? |] | [? | ? |] |] | ?]; simpl;
    repeat split; reflexivity.
Qed.

(** X15.  A custom schedule edit stores a bound exactly when its flag is
    set and its value is not the sentinel -1; every edit, usable or not,
    selects menu entry 4 and echoes it; nothing else of the state changes.
    In particular an edit with no usable bound changes only the menu
    selection. *)
Theorem schedule_edit_effect :
  forall (schedule : TimeInput) (s : State),
    let s' := exec (BLYNK_WRITE_SCHEDULE schedule) s in
    start s' = (if hasStartTime schedule && negb (param0 schedule =? -1)
                then param0 schedule else start s) /\
    stop s' = (if hasStopTime schedule && negb (param1 schedule =? -1)
               then param1 schedule else stop s) /\
    menuSelection s' = 4 /\
    trace (BLYNK_WRITE_SCHEDULE schedule) s = [virtualWrite MENU [VInt 4]] /\
    s' = set_menuSelection 4 (set_stop (stop s') (set_start (start s') s)).
Proof.
  intros schedule s s'. subst s'.
  assert (T : trace (BLYNK_WRITE_SCHEDULE schedule) s = [virtualWrite MENU [VInt 4]]).
  { destruct schedule as [hs p0 he p1]. destruct_state s.
    unfold BLYNK_WRITE_SCHEDULE. unfold_cmd.
    destruct hs, he; simpl;
      destruct (p0 =? -1); simpl; destruct (p1 =? -1); simpl;
      break_if; reflexivity. }
  rewrite BLYNK_WRITE_SCHEDULE_exec.
  destruct schedule as [hs p0 he p1]. destruct_state s.
  destruct (hs && negb (p0 =? -1)), (he && negb (p1 =? -1)); simpl;
    repeat split; try reflexivity; exact T.
Qed.

(** X16.  Schedule edits are idempotent: receiving the same edit twice
    leaves the state the first one left. *)
Theorem schedule_edit_idempotent :
  forall (schedule : TimeInput) (s : State),
    exec (BLYNK_WRITE_SCHEDULE schedule) (exec (BLYNK_WRITE_SCHEDULE schedule) s)
    = exec (BLYNK_WRITE_SCHEDULE schedule) s.
Proof.
  intros schedule s. rewrite !BLYNK_WRITE_SCHEDULE_exec.
  destruct schedule as [hs p0 he p1]. destruct_state s.
  destruct (hs && negb (p0 =? -1)), (he && negb (p1 =? -1)); reflexivity.
Qed.

(** ** What the callback leaves alone *)

(** X17.  However many times the timer callback runs, it never changes
    the schedule, the menu selection, the [disable] flag, the debounce
    window of the switch or the debounce stamps of the dashboard buttons. *)
Theorem callbacks_leave_configuration :
  forall (clks : list Clock) (s : State),
    let s' := ticks clks s in
    start s' = start s /\ stop s' = stop s /\ disable s' = disable s /\
    menuSelection s' = menuSelection s /\
    debounce s' = debounce s /\ debounceStart s' = debounceStart s /\
    lastPress_manual s' = lastPress_manual s /\
    lastPress_disable s' = lastPress_disable s.
Proof.
  induction clks as [| clk rest IH]; intros s.
  - simpl. repeat split.
  - change (ticks (clk :: rest) s) with (ticks rest (exec (powerManagement clk) s)).
    specialize (IH (exec (powerManagement clk) s)). simpl in IH.
    destruct IH as (I1 & I2 & I3 & I4 & I5 & I6 & I7 & I8).
    destruct (powerManagement_frame clk s) as (F1 & F2 & F3 & F4 & F5 & F6 & F7 & F8).
    simpl. repeat split; congruence.
Qed.

Lemma powerManagement_fixed_disabled (clk : Clock) (s : State) :
  disable s = true -> chargeState s = S_DISABLED ->
  lastChargeState s = S_DISABLED -> counterEnabled s = false ->
  charging s = false -> manual s = false ->
  powerManagement clk s = (tt, s, []).
Proof.
  intros. destruct_state s. reflexivity.
Qed.

Lemma powerManagement_fixed_quiescent (clk : Clock) (s : State) :
  disable s = false -> in_window s clk = false -> manual s = false ->
  chargeState s = S_QUIESCENT -> lastChargeState s = S_QUIESCENT ->
  counterEnabled s = false -> charging s = false -> savedRuntime s = 0 ->
  powerManagement clk s = (tt, s, []).
Proof.
  intros D W. intros. unfold in_window in W. destruct_state s.
  unfold powerManagement. unfold_cmd. rewrite W. reflexivity.
Qed.

(** X18.  [S_DISABLED] and [S_QUIESCENT] are resting states: once a
    callback has ended in one of them, a further callback (for
    [S_QUIESCENT]: one that classifies the time of day the same way)
    changes nothing at all in the state and makes no call to the
    dashboard. *)
Theorem resting_states_are_fixed_points :
  forall (s : State) (clk1 clk2 : Clock),
    disable s = true \/ in_window s clk2 = in_window s clk1 ->
    let s1 := exec (powerManagement clk1) s in
    chargeState s1 = S_DISABLED \/ chargeState s1 = S_QUIESCENT ->
    exec (powerManagement clk2) s1 = s1 /\
    trace (powerManagement clk2) s1 = [].
Proof.
  intros s clk1 clk2 H s1 C.
  assert (F : powerManagement clk2 s1 = (tt, s1, [])).
  { subst s1. rewrite powerManagement_chargeState in C. unfold decide in C.
    destruct (disable s) eqn:D.
    - rewrite (powerManagement_disabled clk1 s D).
      apply powerManagement_fixed_disabled; destruct_state s; break_if; reflexivity.
    - destruct H as [H | H]; [ discriminate H | ].
      destruct (in_window s clk1) eqn:W;
        [ destruct C as [C | C]; discriminate C | ].
      destruct (manual s) eqn:M;
        [ destruct C as [C | C]; discriminate C | ].
      rewrite (powerManagement_quiescent clk1 s D W M).
      unfold in_window in *.
      apply powerManagement_fixed_quiescent; unfold in_window;
        destruct_state s; try reflexivity. exact H. }
  unfold exec, trace. rewrite F. split; reflexivity.
Qed.

Lemma resting_states_are_fixed_points_witness :
  (let s1 := exec (powerManagement (at_time 30000)) (set_disable true init) in
   exec (powerManagement (at_time 7200)) s1 = s1 /\
   trace (powerManagement (at_time 7200)) s1 = []) /\
  (let s1 := exec (powerManagement (at_time 30000)) init in
   exec (powerManagement (at_time 30005)) s1 = s1 /\
   trace (powerManagement (at_time 30005)) s1 = []).
Proof.
  split.
  - apply (resting_states_are_fixed_points (set_disable true init)
             (at_time 30000) (at_time 7200)).
    + left. reflexivity.
    + left. reflexivity.
  - apply (resting_states_are_fixed_points init (at_time 30000) (at_time 30005)).
    + right. reflexivity.
    + right. reflexivity.
Defined.

(** ** Formatted output *)

Lemma fmt_02d_two_digits (z : Z) : 0 <= z < 100 -> fmt_02d z = two_digits z.
Proof.
  intros B.
  assert (A : String.eqb (fmt_02d z) (two_digits z) = true).
  { apply (all_upto_spec (Z.to_nat 99)
             (fun n => String.eqb (fmt_02d n) (two_digits n))).
    - vm_compute. reflexivity.
    - rewrite Z2Nat.id by lia. lia. }
  apply String.eqb_eq. exact A.
Qed.

(** X19.  For a runtime below one hundred hours the text built for the
    manual session is [Elapsed hh:mm:ss], each field two decimal digits:
    sixteen characters, well inside the 64-byte buffer. *)
Theorem elapsed_string_format :
  forall runtime : Z,
    0 <= runtime < 360000 ->
    elapsed_string runtime =
      String.append "Elapsed "
        (String.append (two_digits (runtime / 3600))
           (String.append ":"
              (String.append (two_digits (runtime mod 3600 / 60))
                 (String.append ":" (two_digits (runtime mod 60)))))) /\
    String.length (elapsed_string runtime) = 16%nat.
Proof.
  intros runtime B.
  assert (E : elapsed_string runtime =
      String.append "Elapsed "
        (String.append (two_digits (runtime / 3600))
           (String.append ":"
              (String.append (two_digits (runtime mod 3600 / 60))
                 (String.append ":" (two_digits (runtime mod 60))))))).
  { unfold elapsed_string.
    rewrite (Z.rem_mod_nonneg runtime 3600), (Z.rem_mod_nonneg runtime 60) by lia.
    pose proof (Z.mod_pos_bound runtime 3600 ltac:(lia)).
    pose proof (Z.mod_pos_bound runtime 60 ltac:(lia)).
    rewrite (Z.quot_div_nonneg runtime 3600),
      (Z.quot_div_nonneg (runtime mod 3600) 60) by lia.
    rewrite !fmt_02d_two_digits; try reflexivity; try lia.
    - split; [ apply Z.div_pos; lia | apply Z.div_lt_upper_bound; lia ].
    - split; [ apply Z.div_pos; lia | apply Z.div_lt_upper_bound; lia ]. }
  split; [ exact E | rewrite E; reflexivity ].
Qed.

Lemma elapsed_string_format_witness :
  elapsed_string 4000 =
    String.append "Elapsed "
      (String.append (two_digits (4000 / 3600))
         (String.append ":"
            (String.append (two_digits (4000 mod 3600 / 60))
               (String.append ":" (two_digits (4000 mod 60)))))) /\
  String.length (elapsed_string 4000) = 16%nat.
Proof. apply (elapsed_string_format 4000). lia. Defined.

Lemma powerManagement_manual_trace (clk : Clock) (s : State) :
  disable s = false -> in_window s clk = false -> manual s = true ->
  exists tr,
    trace (powerManagement clk) s =
    tr ++ [virtualWrite MANUAL_RUNTIME
             [VStr (elapsed_string
                      (to_int32 (t_report clk
                                 - (if counterEnabled s then runtimeStart s
                                    else t_session clk))))]].
Proof.
  intros D W M. unfold in_window in W. destruct_state s.
  unfold powerManagement. unfold_cmd. rewrite W. simpl.
  destruct ce, lcs; simpl;
    match goal with
    | |- exists tr, [?a] = _ => exists []; reflexivity
    | |- exists tr, [?a; ?b] = _ => exists [a]; reflexivity
    | |- exists tr, [?a; ?b; ?c; ?d; ?e] = _ => exists [a; b; c; d]; reflexivity
    | |- exists tr, [?a; ?b; ?c; ?d; ?e; ?f] = _ =>
        exists [a; b; c; d; e]; reflexivity
    end.
Qed.

(** X20.  While a manual session runs, every callback ends by sending the
    elapsed time of the session to the dashboard's runtime field: [T]
    seconds after the session started (fewer than one hundred hours) the
    text is [Elapsed hh:mm:ss] for [T]. *)
Theorem manual_session_reports_elapsed :
  forall (s : State) (clk : Clock) (T : Z),
    disable s = false -> in_window s clk = false -> manual s = true ->
    counterEnabled s = true ->
    t_report clk = runtimeStart s + T ->
    0 <= T < 360000 ->
    exists tr,
      trace (powerManagement clk) s =
      tr ++ [virtualWrite MANUAL_RUNTIME
               [VStr (String.append "Elapsed "
                        (String.append (two_digits (T / 3600))
                           (String.append ":"
                              (String.append (two_digits (T mod 3600 / 60))
                                 (String.append ":" (two_digits (T mod 60)))))))]].
Proof.
  intros s clk T D W M CE E B.
  destruct (powerManagement_manual_trace clk s D W M) as [tr Htr].
  exists tr. rewrite Htr, CE, E.
  replace (runtimeStart s + T - runtimeStart s) with T by lia.
  rewrite (to_int32_small T) by lia.
  rewrite (proj1 (elapsed_string_format T B)). reflexivity.
Qed.

Lemma manual_session_reports_elapsed_witness :
  exists tr,
    trace (powerManagement (at_time (25200 + 4000))) manual_session_running =
    tr ++ [virtualWrite MANUAL_RUNTIME
             [VStr (String.append "Elapsed "
                      (String.append (two_digits (4000 / 3600))
                         (String.append ":"
                            (String.append (two_digits (4000 mod 3600 / 60))
                               (String.append ":" (two_digits (4000 mod 60)))))))]].
Proof.
  apply (manual_session_reports_elapsed manual_session_running
           (at_time (25200 + 4000)) 4000); try reflexivity.
  lia.
Defined.

(** ** The status screen *)

Lemma string_append_assoc (a b c : string) :
  String.append (String.append a b) c = String.append a (String.append b c).
Proof.
  induction a as [| ch a IH]; simpl; [ reflexivity | rewrite IH; reflexivity ].
Qed.

(** X21.  For schedule bounds below one hundred hours (any time of day
    is), the schedule line of the status screen reads
    [Start hh:mm    Stop hh:mm] with two-digit fields: 25 characters,
    inside the 68-byte buffer; the seconds of the bounds are not shown. *)
Theorem status_screen_schedule_line :
  forall (env : Surroundings) (cstate : ChargeState) (s : State),
    0 <= start s < 360000 -> 0 <= stop s < 360000 ->
    let line := String.append "Start "
                  (String.append (hh_mm (start s))
                     (String.append "    Stop " (hh_mm (stop s)))) in
    In (drawString 0 24 line) (statusUpdate env cstate s) /\
    String.length line = 25%nat.
Proof.
  intros env cstate s B1 B2 line.
  assert (H : forall t, 0 <= t < 360000 ->
                fmt_02d (Z.quot t 3600) = two_digits (t / 3600) /\
                fmt_02d (Z.quot (Z.rem t 3600) 60) = two_digits (t mod 3600 / 60)).
  { intros t B.
    rewrite (Z.rem_mod_nonneg t 3600) by lia.
    pose proof (Z.mod_pos_bound t 3600 ltac:(lia)).
    rewrite (Z.quot_div_nonneg t 3600), (Z.quot_div_nonneg (t mod 3600) 60) by lia.
    split; apply fmt_02d_two_digits;
      (split; [ apply Z.div_pos; lia | apply Z.div_lt_upper_bound; lia ]). }
  destruct (H (start s) B1) as [S1 S2]. destruct (H (stop s) B2) as [P1 P2].
  assert (E : schedule_line s = line).
  { unfold schedule_line. rewrite S1, S2, P1, P2. subst line. unfold hh_mm.
    rewrite !string_append_assoc. reflexivity. }
  split.
  - unfold statusUpdate. rewrite E.
    apply in_or_app. left. simpl. right. right. right. left. reflexivity.
  - subst line. reflexivity.
Qed.

Lemma status_screen_schedule_line_witness :
  let env := mkSurroundings 7200 1 1 7200 (-60) true in
  let line := String.append "Start "
                (String.append (hh_mm (start init))
                   (String.append "    Stop " (hh_mm (stop init)))) in
  In (drawString 0 24 line) (statusUpdate env S_QUIESCENT init) /\
  String.length line = 25%nat.
Proof.
  apply (status_screen_schedule_line (mkSurroundings 7200 1 1 7200 (-60) true)
           S_QUIESCENT init); simpl; lia.
Defined.

(** X22.  The status screen agrees with the power output: after an
    iteration of [loop] that starts in a reachable state, the screen is
    headed [Charging] or [Manual] exactly when the charging MOSFET is on,
    and the progress bar is drawn only in [S_CHARGING], with the power
    on. *)
Theorem status_screen_agrees_with_power :
  forall (env : Surroundings) (millis : Z) (timer : option Clock)
         (incoming : list BlynkCmd) (s : State),
    reachable s ->
    let s' := exec (loop millis timer incoming) s in
    let ops := loop_statusUpdate env millis timer incoming s in
    (power_enable s' = true <->
     In (drawString 0 0 "Charging") ops \/ In (drawString 0 0 "Manual") ops) /\
    (forall x y w h p, In (drawProgressBar x y w h p) ops ->
       chargeState s' = S_CHARGING /\ power_enable s' = true).
Proof.
  intros env millis timer incoming s R s' ops.
  pose proof (reachable_step s (Loop millis timer incoming) R) as R'.
  simpl in R'. fold s' in R'.
  destruct (reachable_accounted s' R') as (A & _).
  subst ops. unfold loop_statusUpdate. fold s'.
  unfold power_enable. rewrite A. clear A R' R. clearbody s'.
  unfold statusUpdate.
  generalize (wifi_line env), (date_line env), (schedule_line s'),
    (runtime_line env s'),
    (elapsed_string (to_int32 (now_elapsed env - runtimeStart s'))),
    (int_of_float (chargeProgress s')).
  intros l1 l2 l3 l4 l5 bar.
  destruct (chargeState s'); simpl; (split; [ split | ]).
  all: try (intros H; discriminate H).
  all: try (intros _; reflexivity).
  all: try (intros _; left; do 5 right; left; reflexivity).
  all: try (intros _; right; do 5 right; left; reflexivity).
  all: try (intros [H | H]; in_list H; contradiction).
  all: intros x y w h p H; in_list H; try contradiction.
  split; reflexivity.
Qed.

Lemma status_screen_agrees_with_power_witness :
  let env := mkSurroundings 7200 1 1 7200 (-60) true in
  let s' := exec (loop 10000 (Some (at_time 7200)) []) init in
  let ops := loop_statusUpdate env 10000 (Some (at_time 7200)) [] init in
  (power_enable s' = true <->
   In (drawString 0 0 "Charging") ops \/ In (drawString 0 0 "Manual") ops) /\
  (forall x y w h p, In (drawProgressBar x y w h p) ops ->
     chargeState s' = S_CHARGING /\ power_enable s' = true).
Proof.
  apply (status_screen_agrees_with_power (mkSurroundings 7200 1 1 7200 (-60) true)
           10000 (Some (at_time 7200)) [] init).
  apply reachable_init.
Defined.

(** ** Who switches the power *)

(** X23.  Only the timer callback switches the power: a switch edge, and
    an iteration of [loop] in which the timer is not due, leave the derived
    state and the MOSFET flag as they were, whatever dashboard commands the
    iteration dispatches; a press takes effect at the next callback. *)
Theorem power_changes_only_in_callback :
  forall (s : State) (ev : Event),
    (forall millis clk incoming, ev <> Loop millis (Some clk) incoming) ->
    chargeState (exec (step ev) s) = chargeState s /\
    power_enable (exec (step ev) s) = power_enable s.
Proof.
  intros s ev N. unfold power_enable.
  destruct ev as [millis | millis [clk |] incoming].
  - simpl. destruct (debounce s) eqn:D.
    + rewrite manualOverride_drops by exact D. split; reflexivity.
    + rewrite manualOverride_accepts by exact D. destruct_state s.
      split; reflexivity.
  - exfalso. apply (N millis clk incoming). reflexivity.
  - simpl. rewrite loop_exec.
    destruct (Blynk_run_same_session incoming
                (exec (timer_run None) (exec (loop_debounce millis) s)))
      as (H1 & _ & _ & H4 & _).
    rewrite H1, H4. simpl.
    change (exec (ret tt) (exec (loop_debounce millis) s))
      with (exec (loop_debounce millis) s).
    rewrite loop_debounce_exec. destruct_state s. break_if; split; reflexivity.
Qed.

Lemma power_changes_only_in_callback_witness :
  let s := exec (powerManagement (at_time 7200)) init in
  let ev := Loop 20000 None [Write_FORCE_DISABLE 20000 20000] in
  chargeState (exec (step ev) s) = chargeState s /\
  power_enable (exec (step ev) s) = power_enable s.
Proof.
  intros s ev.
  apply (power_changes_only_in_callback s ev).
  intros millis clk incoming H. discriminate H.
Defined.
